(** * Shop API (Express + MongoDB): request handlers over a document store

    A shallow embedding of the request-handling layer of the service: the
    API-key middleware, the route handlers for the "products" and "items"
    collections, and the identifier codec they rely on.  Each handler is a
    value of [Handler]: either an immediate response, or one store call
    inside a try/catch together with the code run on its result.  A
    handler that throws outside [try], as the body-reading handlers do on a
    request without a parsed body, is an immediate response too: the error
    page of the framework.  The handlers are then run against a finite-map
    model of the document store.

    What lies outside the source files is kept apart from the handlers:
    - JavaScript numbers and the [Number(...)] coercion are a parameter
      ([JsNumber], [JsToNumber]);
    - the store's evaluation of [find] queries is a parameter
      ([QueryEngine]);
    - [ObjectId.isValid] / [new ObjectId(hex)] / [toHexString] follow the
      driver's 24-character hexadecimal encoding of a 12-byte identifier;
    - [insertOne], [findOne], [updateOne {$set}], [deleteOne] act on a
      finite map from identifiers to documents, field names being taken as
      plain top-level names, the identifier of a document being
      immutable. *)

From Stdlib Require Import NArith Ascii String List.
From stdpp Require Import base option list gmap strings fin_maps.

Local Open Scope string_scope.
Local Set Warnings "-register-all".

(** ** JavaScript values *)

(** The number type of the host language and its truthiness ([0], [-0] and
    [NaN] are falsy). *)
Class JsNumber := {
  number : Type;
  number_truthy : number → bool
}.

(** An identifier of the store: the 96-bit value of an [ObjectId]. *)
Definition ObjectId := N.

Section values.
Context `{JsNumber}.

(** Values found in parsed bodies, parsed query strings and documents.
    [undefined] is the [None] of a field lookup. *)
Inductive Value : Type :=
| VNull
| VBool (b : bool)
| VNum (n : number)
| VStr (s : string)
| VArr (l : list Value)
| VObj (o : list (string * Value))
| VId (i : ObjectId).

(** [truthy v] is [!!v]. *)
Definition truthy (v : Value) : bool :=
  match v with
  | VNull => false
  | VBool b => b
  | VNum n => number_truthy n
  | VStr s => negb (String.eqb s "")
  | VArr _ | VObj _ | VId _ => true
  end.

(** Truthiness of a property read, [undefined] being falsy. *)
Definition truthy_opt (o : option Value) : bool :=
  match o with
  | None => false
  | Some v => truthy v
  end.

End values.

(** A JavaScript object with string keys: request bodies, query objects,
    documents. *)
Abbreviation Doc := (gmap string Value).

(** [Number(v)]. *)
Class JsToNumber `{JsNumber} := {
  Number : Value → number
}.

(** Truthiness of a header value or of an environment variable read:
    a string, or [undefined]. *)
Definition truthy_str (o : option string) : bool :=
  match o with
  | None => false
  | Some s => negb (String.eqb s "")
  end.

(** ** The identifier codec *)

(** Value of a hexadecimal digit, as accepted by [/^[0-9a-fA-F]{24}$/]. *)
Definition hex_value (c : ascii) : option N :=
  let n := N_of_ascii c in
  if (48 <=? n)%N && (n <=? 57)%N then Some (n - 48)%N
  else if (97 <=? n)%N && (n <=? 102)%N then Some (n - 87)%N
  else if (65 <=? n)%N && (n <=? 70)%N then Some (n - 55)%N
  else None.

Definition is_hex (c : ascii) : bool :=
  match hex_value c with Some _ => true | None => false end.

(** Modelled from the spec: [ObjectId.isValid(id)] belongs to the store's
    driver, which is not among the sources.  The identifier format accepted
    in path parameters is the canonical 24-character hexadecimal encoding;
    anything else is malformed. *)
Definition isValid (id : string) : bool :=
  (String.length id =? 24)%nat && forallb is_hex (list_ascii_of_string id).

Definition hex_digit_or_zero (c : ascii) : N :=
  match hex_value c with Some d => d | None => 0%N end.

(** [new ObjectId(id)] on a string that passed [isValid]: the bytes read
    from the hexadecimal digits, most significant first. *)
Definition fromHex (id : string) : ObjectId :=
  fold_left (fun acc c => (16 * acc + hex_digit_or_zero c)%N)
            (list_ascii_of_string id) 0%N.

(** Lower-case digit of a value below 16. *)
Definition hex_char (d : N) : ascii :=
  if (d <? 10)%N then ascii_of_N (48 + d) else ascii_of_N (87 + d).

Fixpoint hex_digits (k : nat) (n : N) : list ascii :=
  match k with
  | O => []
  | S k' => hex_digits k' (n / 16)%N ++ [hex_char (n mod 16)%N]
  end.

(** [oid.toHexString()], also the JSON form of an identifier. *)
Definition toHexString (i : ObjectId) : string :=
  string_of_list_ascii (hex_digits 24 i).

(** The identifiers the store can hold: 12 bytes. *)
Definition oid_bound : N := (16 ^ 24)%N.

(** [isValid] says what it should: 24 characters, each of them a
    hexadecimal digit in either case. *)
Definition hex_digit_char (c : ascii) : Prop :=
  let n := N_of_ascii c in
  (48 ≤ n ≤ 57)%N ∨ (97 ≤ n ≤ 102)%N ∨ (65 ≤ n ≤ 70)%N.

Definition hex24 (id : string) : Prop :=
  String.length id = 24%nat ∧ Forall hex_digit_char (list_ascii_of_string id).


(** ** The document store *)

Inductive Coll := Products | Items.

(** A projection object [{field: 1, ...}] and a sort object
    [{field: direction}]. *)
Abbreviation Projection := (gmap string nat).
Abbreviation Sort := (list (string * Z)).

Section store.
Context `{JsNumber}.

(** The filter object of [GET /api/products]: [{}] with an optional
    [category] key and an optional [price: {$gte: n}] key. *)
Record Filter := {
  filter_category : option Value;
  filter_price_gte : option number
}.

Definition empty_filter : Filter :=
  {| filter_category := None; filter_price_gte := None |}.

(** The store calls made by the handlers, indexed by what they resolve to.
    [UpdateOne c i d] is [updateOne({_id: i}, {$set: d})]; [FindOne] and
    [DeleteOne] take the filter [{_id: i}]. *)
Inductive Call : Type → Type :=
| Find (c : Coll) (f : Filter) (p : option Projection) (s : option Sort)
    : Call (list Doc)
| FindOne (c : Coll) (i : ObjectId) : Call (option Doc)
| InsertOne (c : Coll) (d : Doc) : Call ObjectId
| UpdateOne (c : Coll) (i : ObjectId) (set : Doc) : Call nat
| DeleteOne (c : Coll) (i : ObjectId) : Call nat.

(** A store call, forgetting its result type: an entry of the call log. *)
Inductive Logged : Type :=
| Log {T : Type} (c : Call T).

(** The database [shop]: two collections keyed by [_id]. *)
Record Db := {
  products : gmap ObjectId Doc;
  items : gmap ObjectId Doc
}.

Definition collection (db : Db) (c : Coll) : gmap ObjectId Doc :=
  match c with
  | Products => products db
  | Items => items db
  end.

Definition with_collection (db : Db) (c : Coll) (m : gmap ObjectId Doc) : Db :=
  match c with
  | Products => {| products := m; items := items db |}
  | Items => {| products := products db; items := m |}
  end.

(** How the store evaluates a [find] query: matching, ordering and
    projecting are the store's business. *)
Class QueryEngine := {
  find_docs : gmap ObjectId Doc → Filter → option Projection → option Sort
              → list Doc
}.

Context `{QueryEngine}.

(** A [$set] that names [_id] with a value other than the identifier [i] of
    the document it is applied to. *)
Definition rewrites_id (set : Doc) (i : ObjectId) : bool :=
  match set !! "_id" with
  | None => false
  | Some (VId j) => negb (j =? i)%N
  | Some _ => true
  end.

(** Modelled from the spec: the document store is not among the sources.
    It exposes [find], [findOne] by identifier, [insertOne] returning the
    generated identifier, [updateOne] returning the matched count and
    [deleteOne] returning the deleted count; every document gets a unique
    identifier at insertion; [$set] merges the named fields and leaves the
    others untouched.

    [None] is a rejected promise.  [gen] is the identifier generated for
    the inserted document; an identifier already in the collection is a
    duplicate-key error, and documents that bring their own [_id] are
    outside this model.  An update or a deletion by identifier matches one
    document or none.  The identifier is immutable: an update that would
    give the matched document another [_id] is rejected and writes
    nothing. *)
Definition exec {T : Type} (gen : ObjectId) (db : Db) (c : Call T)
  : option (T * Db) :=
  match c in Call T return option (T * Db) with
  | Find c f p s => Some (find_docs (collection db c) f p s, db)
  | FindOne c i => Some (collection db c !! i, db)
  | InsertOne c d =>
      match d !! "_id", collection db c !! gen with
      | None, None =>
          Some (gen, with_collection db c
                       (<[gen := <["_id" := VId gen]> d]> (collection db c)))
      | _, _ => None
      end
  | UpdateOne c i set =>
      match collection db c !! i with
      | None => Some (0%nat, db)
      | Some d =>
          if rewrites_id set i then None
          else Some (1%nat, with_collection db c
                              (<[i := set ∪ d]> (collection db c)))
      end
  | DeleteOne c i =>
      match collection db c !! i with
      | None => Some (0%nat, db)
      | Some _ => Some (1%nat, with_collection db c (delete i (collection db c)))
      end
  end.

(** ** Responses and handlers *)

(** What a response carries: nothing ([send()]), the error page that the
    framework writes for an uncaught error, or one of the JSON objects of
    the handlers: [{error}], [{message}], [{message, <key>: id}], a
    document, [{count, <key>: docs}]. *)
Inductive Body :=
| BEmpty
| BErrorPage
| BError (error : string)
| BMessage (message : string)
| BCreated (message : string) (key : string) (id : ObjectId)
| BDoc (d : Doc)
| BList (key : string) (docs : list Doc).

Record Response := {
  status : nat;
  body : Body
}.

(** [res.status(code).json(b)] *)
Definition json (code : nat) (b : Body) : Response :=
  {| status := code; body := b |}.

(** A handler: a response sent at once, or a store call awaited inside
    [try], the code run on its result, and the response of [catch]. *)
Inductive Handler : Type :=
| Done (r : Response)
| Await {T : Type} (c : Call T) (k : T → Response) (catch : Response).

Record Outcome := {
  response : Response;
  db_after : option Db;
  calls : list Logged
}.

(** Running a handler.  The handle [db] is [undefined] ([None]) until the
    connection is established; [db.collection] then throws inside [try]
    and no call reaches the store. *)
Definition run (db : option Db) (gen : ObjectId) (h : Handler) : Outcome :=
  match h with
  | Done r => {| response := r; db_after := db; calls := [] |}
  | Await c k catch =>
      match db with
      | None => {| response := catch; db_after := None; calls := [] |}
      | Some d =>
          match exec gen d c with
          | Some (x, d') =>
              {| response := k x; db_after := Some d'; calls := [Log c] |}
          | None =>
              {| response := catch; db_after := Some d; calls := [Log c] |}
          end
      end
  end.

End store.

(** ** The application *)

(** [s.split(sep)] for a one-character separator. *)
Fixpoint split (sep : ascii) (s : string) : list string :=
  match s with
  | EmptyString => [EmptyString]
  | String c s' =>
      if Ascii.eqb c sep then EmptyString :: split sep s'
      else match split sep s' with
           | w :: ws => String c w :: ws
           | [] => [String c EmptyString]
           end
  end.

(** [projection[field] = 1].  Assigning a number through the inherited
    [__proto__] accessor creates no own property. *)
Definition assign_one (projection : Projection) (field : string) : Projection :=
  if String.eqb field "__proto__" then projection
  else <[field := 1%nat]> projection.

(** What an HTTP request brings to a handler: [req.params.id],
    [req.query], [req.body] and [req.headers["x-api-key"]].  [req.body] is
    the parsed object, or [undefined] ([None]) when the request has no
    body that the parsers read. *)
Record Request `{JsNumber} := {
  params_id : string;
  query : Doc;
  req_body : option Doc;
  x_api_key : option string
}.

Section app.
Context `{JsNumber} `{!JsToNumber}.

Definition server_error : Response := json 500 (BError "Server error").

(** What the client gets when a handler throws outside [try]: the rejected
    handler is passed to the default error handler of the framework, which
    answers 500 with a page of its own. *)
Definition uncaught_error : Response := {| status := 500; body := BErrorPage |}.

(** The API-key middleware; [serverKey] is [process.env.API_KEY]. *)
Definition apiKeyMiddleware (serverKey : option string) (req : Request)
    (next : Handler) : Handler :=
  let clientKey := x_api_key req in
  if negb (truthy_str clientKey) then
    Done (json 401 (BError "Unauthorized: API key missing"))
  else if negb (bool_decide (clientKey = serverKey)) then
    Done (json 403 (BError "Forbidden: Invalid API key"))
  else next.

(** [sort === "price"] *)
Definition is_price (sort : option Value) : bool :=
  match sort with
  | Some (VStr s) => String.eqb s "price"
  | _ => false
  end.

(** The projection of [GET /api/products]: [null] unless [fields] is
    truthy; [fields.split] throws on a value that is not a string (the
    outer [None]). *)
Definition build_projection (fields : option Value)
  : option (option Projection) :=
  if truthy_opt fields then
    match fields with
    | Some (VStr s) => Some (Some (fold_left assign_one (split "," s) ∅))
    | _ => None
    end
  else Some None.

Definition build_filter (category minPrice : option Value) : Filter :=
  {| filter_category := if truthy_opt category then category else None;
     filter_price_gte := if truthy_opt minPrice then Number <$> minPrice
                         else None |}.

Definition build_sort (sort : option Value) : option Sort :=
  if is_price sort then Some [("price", 1%Z)] else None.

Definition list_reply (key : string) (docs : list Doc) : Response :=
  json 200 (BList key docs).

(** GET /api/products *)
Definition get_products (req : Request) : Handler :=
  let category := query req !! "category" in
  let minPrice := query req !! "minPrice" in
  let sort := query req !! "sort" in
  let fields := query req !! "fields" in
  let filter := build_filter category minPrice in
  match build_projection fields with
  | None => Done server_error
  | Some projection =>
      Await (Find Products filter projection (build_sort sort))
            (list_reply "products") server_error
  end.

Definition found_reply (missing : string) (doc : option Doc) : Response :=
  match doc with
  | None => json 404 (BError missing)
  | Some d => json 200 (BDoc d)
  end.

(** GET /api/products/:id *)
Definition get_product_by_id (req : Request) : Handler :=
  let id := params_id req in
  if negb (isValid id) then Done (json 400 (BError "Invalid product ID"))
  else Await (FindOne Products (fromHex id))
             (found_reply "Product not found") server_error.

Definition created_reply (message key : string) (insertedId : ObjectId)
  : Response :=
  json 201 (BCreated message key insertedId).

(** POST /api/products.  The handler starts by destructuring the body,
    outside [try]: on an [undefined] body this throws.  On an object, a
    field that is absent reads as [undefined], which is falsy. *)
Definition post_products (req : Request) : Handler :=
  match req_body req with
  | None => Done uncaught_error
  | Some body =>
      match body !! "name", body !! "price", body !! "category" with
      | Some name, Some price, Some category =>
          if negb (truthy name) || negb (truthy price)
             || negb (truthy category)
          then Done (json 400 (BError "Missing required fields"))
          else
            let newProduct : Doc :=
              {[ "name" := name; "price" := VNum (Number price);
                 "category" := category ]} in
            Await (InsertOne Products newProduct)
                  (created_reply "Product created" "productId") server_error
      | _, _, _ => Done (json 400 (BError "Missing required fields"))
      end
  end.

(** GET /api/items *)
Definition get_items (req : Request) : Handler :=
  Await (Find Items empty_filter None None) (list_reply "items") server_error.

(** GET /api/items/:id *)
Definition get_item_by_id (req : Request) : Handler :=
  let id := params_id req in
  if negb (isValid id) then Done (json 400 (BError "Invalid item ID"))
  else Await (FindOne Items (fromHex id))
             (found_reply "Item not found") server_error.

(** POST /api/items.  The body is destructured first, outside [try]. *)
Definition post_items (req : Request) : Handler :=
  match req_body req with
  | None => Done uncaught_error
  | Some body =>
      match body !! "name", body !! "description" with
      | Some name, Some description =>
          if negb (truthy name) || negb (truthy description)
          then Done (json 400
                       (BError "Missing required fields: name, description"))
          else
            let newItem : Doc :=
              {[ "name" := name; "description" := description ]} in
            Await (InsertOne Items newItem)
                  (created_reply "Item created" "id") server_error
      | _, _ =>
          Done (json 400 (BError "Missing required fields: name, description"))
      end
  end.

Definition updated_reply (message : string) (matchedCount : nat) : Response :=
  if (matchedCount =? 0)%nat then json 404 (BError "Item not found")
  else json 200 (BMessage message).

(** PUT /api/items/:id.  The body is destructured before the identifier
    is tested, outside [try]: on an [undefined] body this throws, whatever
    the identifier. *)
Definition put_item (req : Request) : Handler :=
  let id := params_id req in
  match req_body req with
  | None => Done uncaught_error
  | Some body =>
      if negb (isValid id) then Done (json 400 (BError "Invalid item ID"))
      else
        match body !! "name", body !! "description" with
        | Some name, Some description =>
            if negb (truthy name) || negb (truthy description)
            then Done (json 400
                         (BError
                            "PUT requires full item data: name, description"))
            else
              Await (UpdateOne Items (fromHex id)
                       {[ "name" := name; "description" := description ]})
                    (updated_reply "Item fully updated") server_error
        | _, _ =>
            Done (json 400
                    (BError "PUT requires full item data: name, description"))
        end
  end.

(** PATCH /api/items/:id.  The body is read after the identifier test,
    and [!updates] covers the [undefined] body. *)
Definition patch_item (req : Request) : Handler :=
  let id := params_id req in
  if negb (isValid id) then Done (json 400 (BError "Invalid item ID"))
  else
    match req_body req with
    | None => Done (json 400 (BError "No fields provided for update"))
    | Some updates =>
        if (size updates =? 0)%nat
        then Done (json 400 (BError "No fields provided for update"))
        else Await (UpdateOne Items (fromHex id) updates)
                   (updated_reply "Item partially updated") server_error
    end.

Definition deleted_reply (deletedCount : nat) : Response :=
  if (deletedCount =? 0)%nat then json 404 (BError "Item not found")
  else {| status := 204; body := BEmpty |}.

(** DELETE /api/items/:id *)
Definition delete_item (req : Request) : Handler :=
  let id := params_id req in
  if negb (isValid id) then Done (json 400 (BError "Invalid item ID"))
  else Await (DeleteOne Items (fromHex id)) deleted_reply server_error.

(** The routes of the API, as registered on the application. *)
Inductive Route :=
| GetProducts | GetProductById | PostProducts
| GetItems | GetItemById | PostItems | PutItem | PatchItem | DeleteItem.

Definition route_handler (r : Route) : Request → Handler :=
  match r with
  | GetProducts => get_products
  | GetProductById => get_product_by_id
  | PostProducts => post_products
  | GetItems => get_items
  | GetItemById => get_item_by_id
  | PostItems => post_items
  | PutItem => put_item
  | PatchItem => patch_item
  | DeleteItem => delete_item
  end.

(** The routes registered with [apiKeyMiddleware] before their handler. *)
Definition gated (r : Route) : bool :=
  match r with
  | PostItems | PutItem | PatchItem | DeleteItem => true
  | _ => false
  end.

(** The routes whose path carries [:id]. *)
Definition id_keyed (r : Route) : bool :=
  match r with
  | GetProductById | GetItemById | PutItem | PatchItem | DeleteItem => true
  | _ => false
  end.

(** A request on a route: the middleware chain, then the handler. *)
Definition serve (serverKey : option string) (r : Route) (req : Request)
  : Handler :=
  if gated r then apiKeyMiddleware serverKey req (route_handler r req)
  else route_handler r req.

(** The request carries the configured secret: a truthy header, strictly
    equal to [process.env.API_KEY]. *)
Definition authorized (serverKey : option string) (req : Request) : Prop :=
  truthy_str (x_api_key req) = true ∧ x_api_key req = serverKey.

(** A [fields] parameter on which [fields.split] is not reached or is the
    string method: absent, falsy, or a string. *)
Definition fields_splittable (fields : option Value) : Prop :=
  truthy_opt fields = false ∨ ∃ s, fields = Some (VStr s).

(** The identifier of a [201] response as the client reads it. *)
Definition created_id (r : Response) : option string :=
  match body r with
  | BCreated _ _ i => Some (toHexString i)
  | _ => None
  end.

End app.

(** ** Reading the route table *)

Section routes.
Context `{JsNumber} `{!JsToNumber} `{!QueryEngine}.

(** The routes under [/api/items]; the others are under [/api/products]. *)
Definition on_items (r : Route) : bool :=
  match r with
  | GetItems | GetItemById | PostItems | PutItem | PatchItem | DeleteItem =>
      true
  | _ => false
  end.

(** The routes registered with [app.get]. *)
Definition read_only (r : Route) : bool :=
  match r with
  | GetProducts | GetProductById | GetItems | GetItemById => true
  | _ => false
  end.

(** The collection a store call addresses. *)
Definition call_coll {T : Type} (c : Call T) : Coll :=
  match c with
  | Find c _ _ _ | FindOne c _ | InsertOne c _ | UpdateOne c _ _
  | DeleteOne c _ => c
  end.

(** The awaited store call of the handler rejects. *)
Definition store_rejects (gen : ObjectId) (d : Db) (h : Handler) : bool :=
  match h with
  | Done _ => false
  | Await c _ _ => match exec gen d c with None => true | Some _ => false end
  end.

(** The status codes written in each route's handler and, for the gated
    routes, in the middleware before it. *)
Definition statuses (r : Route) : list nat :=
  match r with
  | GetProducts | GetItems => [200; 500]
  | GetProductById | GetItemById => [200; 400; 404; 500]
  | PostProducts => [201; 400; 500]
  | PostItems => [201; 400; 401; 403; 500]
  | PutItem | PatchItem => [200; 400; 401; 403; 404; 500]
  | DeleteItem => [204; 400; 401; 403; 404; 500]
  end%nat.

(** The one document a store call can change: the document inserted under
    the generated identifier, or the document updated or deleted by
    identifier. *)
Definition call_target {T : Type} (gen : ObjectId) (c : Call T)
  : option ObjectId :=
  match c with
  | Find _ _ _ _ => None
  | InsertOne _ _ => Some gen
  | FindOne _ i | UpdateOne _ i _ | DeleteOne _ i => Some i
  end.


(** The same request with another [x-api-key] header. *)
Definition with_key (key : option string) (req : Request) : Request :=
  {| params_id := params_id req; query := query req;
     req_body := req_body req; x_api_key := key |}.

(** The same request on another path identifier. *)
Definition with_id (id : string) (req : Request) : Request :=
  {| params_id := id; query := query req;
     req_body := req_body req; x_api_key := x_api_key req |}.

(** [!name || !description] on a parsed body. *)
Definition item_fields_missing (body : Doc) : bool :=
  negb (truthy_opt (body !! "name"))
  || negb (truthy_opt (body !! "description")).

(** [!name || !price || !category] on a parsed body. *)
Definition product_fields_missing (body : Doc) : bool :=
  negb (truthy_opt (body !! "name"))
  || negb (truthy_opt (body !! "price"))
  || negb (truthy_opt (body !! "category")).

(** Running a handler when the store rejects the call it awaits, for
    whatever reason: the [catch] block answers and nothing is written. *)
Definition run_rejecting (db : option Db) (h : Handler) : Outcome :=
  match h with
  | Done r => {| response := r; db_after := db; calls := [] |}
  | Await c k catch =>
      match db with
      | None => {| response := catch; db_after := None; calls := [] |}
      | Some d => {| response := catch; db_after := Some d; calls := [Log c] |}
      end
  end.

End routes.

(** ** A concrete instance, to run the model on requests *)

(** The numbers of the samples: the integers, and [Unread] for a number
    that the samples do not compute (a fraction, an exponent form, NaN,
    ...).  Sent in a body, a number that is not an integer is not zero, so
    [Unread] counts as truthy. *)
Inductive SampleNumber :=
| Int (z : Z)
| Unread.

Definition sample_numbers : JsNumber :=
  {| number := SampleNumber;
     number_truthy := fun n => match n with
                               | Int z => negb (z =? 0)%Z
                               | Unread => true
                               end |}.

Definition is_decimal_digit (c : ascii) : bool :=
  let n := N_of_ascii c in (48 <=? n)%N && (n <=? 57)%N.

Definition decimal_value (l : list ascii) : Z :=
  fold_left (fun acc c => (10 * acc + (Z.of_N (N_of_ascii c) - 48))%Z) l 0%Z.

(** One to fifteen decimal digits: the integer they write, which is below
    2^53 and so is the number itself. *)
Definition read_digits (l : list ascii) : option Z :=
  if negb (length l =? 0)%nat && (length l <=? 15)%nat
     && forallb is_decimal_digit l
  then Some (decimal_value l) else None.

(** [Number(s)] where the sample computes it: the empty string is 0, and
    a string of digits with an optional sign is the integer it writes.
    A negative zero, blanks, fractions, exponents and the other numeric
    forms are left [Unread], as are the strings that are no number. *)
Definition read_number (s : string) : SampleNumber :=
  match list_ascii_of_string s with
  | [] => Int 0
  | c :: l =>
      if Ascii.eqb c "-" then
        match read_digits l with
        | Some z => if (z =? 0)%Z then Unread else Int (- z)
        | None => Unread
        end
      else if Ascii.eqb c "+" then
        match read_digits l with Some z => Int z | None => Unread end
      else
        match read_digits (c :: l) with Some z => Int z | None => Unread end
  end.

(** [Number(v)] where the sample computes it. *)
Definition sample_Number (v : @Value sample_numbers) : SampleNumber :=
  match v with
  | VNum n => n
  | VStr s => read_number s
  | VBool true => Int 1
  | VBool false => Int 0
  | VNull => Int 0
  | VArr _ | VObj _ | VId _ => Unread
  end.

Definition sample_coercion : @JsToNumber sample_numbers :=
  {| Number := sample_Number |}.

(** A query engine that returns every document of the collection,
    whatever the filter, the projection and the order asked for. *)
Definition sample_engine : @QueryEngine sample_numbers :=
  {| find_docs := fun m f _ _ => snd <$> map_to_list m |}.

(** Sample data: one stored item, a second identifier not yet in use, and
    requests built from their parts. *)
Definition sample_id_hex : string := "507f1f77bcf86cd799439011".
Definition sample_id : ObjectId := fromHex sample_id_hex.
Definition unused_id : ObjectId := fromHex "65a1b2c3d4e5f60718293a4b".

Definition sample_item : gmap string (@Value sample_numbers) :=
  {[ "_id" := VId sample_id; "name" := VStr "Pen";
     "description" := VStr "Blue ink";
     "stock" := @VNum sample_numbers (Int 3) ]}.

Definition sample_db : @Db sample_numbers :=
  {| products := ∅; items := {[ sample_id := sample_item ]} |}.

Definition request (id : string) (q b : gmap string (@Value sample_numbers))
    (key : option string) : @Request sample_numbers :=
  {| params_id := id; query := q; req_body := Some b; x_api_key := key |}.

(** A request without a body that the parsers read. *)
Definition bodyless (id : string) (q : gmap string (@Value sample_numbers))
    (key : option string) : @Request sample_numbers :=
  {| params_id := id; query := q; req_body := None; x_api_key := key |}.

(** A full item body with one field more than the handlers ask for. *)
Definition body_with_extra : gmap string (@Value sample_numbers) :=
  {[ "name" := VStr "Pencil"; "description" := VStr "HB";
     "color" := VStr "red" ]}.

(** The product of the listing scenario, price sent as a string. *)
Definition pen_body : gmap string (@Value sample_numbers) :=
  {[ "name" := VStr "Pen"; "price" := VStr "10";
     "category" := VStr "office" ]}.

Definition unused_id_hex : string := "65a1b2c3d4e5f60718293a4b".

(** Requests of the samples: creations, a full update, partial updates, a
    deletion and reads, with the key ["s3cret"] where a key is sent. *)
Definition post_pen := request "" ∅ pen_body None.
Definition post_extra := request "" ∅ body_with_extra (Some "s3cret").
Definition put_extra := request sample_id_hex ∅ body_with_extra (Some "s3cret").
Definition patch_nothing := request sample_id_hex ∅ ∅ (Some "s3cret").
Definition patch_color :=
  request sample_id_hex ∅ {[ "color" := VStr "red" ]} (Some "s3cret").
Definition delete_sample := request sample_id_hex ∅ ∅ (Some "s3cret").
Definition get_sample := request sample_id_hex ∅ ∅ None.

(** [?category=office&minPrice=5&sort=price&fields=name,price],
    [?category=] and [?fields=name&fields=price]. *)
Definition list_office :=
  request "" {[ "category" := VStr "office"; "minPrice" := VStr "5";
                "sort" := VStr "price"; "fields" := VStr "name,price" ]}
          ∅ None.
Definition list_empty_category :=
  request "" {[ "category" := VStr "" ]} ∅ None.
Definition list_repeated_fields :=
  request "" {[ "fields" := VArr [VStr "name"; VStr "price"] ]} ∅ None.

(** More sample requests: a full update and a deletion on the identifier
    that is not in use, and a third identifier. *)
Definition third_id : ObjectId := fromHex "65a1b2c3d4e5f60718293a4c".
Definition put_unused := request unused_id_hex ∅ body_with_extra (Some "s3cret").
Definition delete_unused := request unused_id_hex ∅ ∅ (Some "s3cret").

(** A full update on a malformed identifier, sent with the key and without
    a body; a partial update that names [_id]; creations without a body
    and with an empty name. *)
Definition put_bodyless := bodyless "not-an-id" ∅ (Some "s3cret").
Definition patch_id :=
  request sample_id_hex ∅ {[ "_id" := VStr "x" ]} (Some "s3cret").
Definition post_bodyless := bodyless "" ∅ (Some "s3cret").
Definition post_unnamed :=
  request "" ∅ {[ "name" := VStr ""; "description" := VStr "HB" ]}
          (Some "s3cret").

(** ** Codec lemmas *)

Lemma hex_value_hex_char (d : N) :
  (d < 16)%N → hex_value (hex_char d) = Some d.
Proof.
  intros Hd.
  assert (Hcases : In d (map N.of_nat (seq 0 16))).
  { apply in_map_iff. exists (N.to_nat d). split; [lia|].
    apply in_seq. lia. }
  simpl in Hcases.
  repeat (destruct Hcases as [<-|Hcases]; [reflexivity|]).
  destruct Hcases.
Qed.

Lemma length_hex_digits (k : nat) (n : N) : length (hex_digits k n) = k.
Proof.
  revert n. induction k as [|k IH]; intros n; simpl; [done|].
  rewrite length_app, IH. simpl. lia.
Qed.

Lemma forallb_is_hex_hex_digits (k : nat) (n : N) :
  forallb is_hex (hex_digits k n) = true.
Proof.
  revert n. induction k as [|k IH]; intros n; simpl; [done|].
  rewrite forallb_app, IH. simpl.
  unfold is_hex. rewrite hex_value_hex_char; [done|].
  apply N.mod_lt. lia.
Qed.

Lemma fold_hex_digits (k : nat) (n : N) :
  (n < 16 ^ N.of_nat k)%N →
  fold_left (fun acc c => (16 * acc + hex_digit_or_zero c)%N)
            (hex_digits k n) 0%N = n.
Proof.
  revert n. induction k as [|k IH]; intros n Hn.
  - simpl in *. lia.
  - simpl hex_digits. rewrite fold_left_app. simpl.
    rewrite IH.
    + unfold hex_digit_or_zero. rewrite hex_value_hex_char.
      * symmetry. apply N.div_mod. lia.
      * apply N.mod_lt. lia.
    + apply N.Div0.div_lt_upper_bound.
      replace (N.of_nat (S k)) with (N.succ (N.of_nat k)) in Hn by lia.
      rewrite N.pow_succ_r' in Hn. lia.
Qed.

Lemma string_length_of_list (l : list ascii) :
  String.length (string_of_list_ascii l) = length l.
Proof. induction l as [|c l IH]; simpl; [done|by rewrite IH]. Qed.

(** The hexadecimal form of an identifier is accepted by the codec. *)
Lemma isValid_toHexString (i : ObjectId) : isValid (toHexString i) = true.
Proof.
  unfold isValid, toHexString.
  rewrite string_length_of_list, length_hex_digits.
  rewrite list_ascii_of_string_of_list_ascii.
  by rewrite forallb_is_hex_hex_digits.
Qed.

(** Parsing the hexadecimal form gives the identifier back. *)
Lemma fromHex_toHexString (i : ObjectId) :
  (i < oid_bound)%N → fromHex (toHexString i) = i.
Proof.
  intros Hi. unfold fromHex, toHexString.
  rewrite list_ascii_of_string_of_list_ascii.
  apply fold_hex_digits. exact Hi.
Qed.

Lemma is_hex_spec (c : ascii) : is_hex c = true ↔ hex_digit_char c.
Proof.
  unfold is_hex, hex_value, hex_digit_char. cbv zeta.
  destruct (N.leb_spec 48 (N_of_ascii c)), (N.leb_spec (N_of_ascii c) 57),
    (N.leb_spec 97 (N_of_ascii c)), (N.leb_spec (N_of_ascii c) 102),
    (N.leb_spec 65 (N_of_ascii c)), (N.leb_spec (N_of_ascii c) 70);
    simpl; split; intros; try done; try lia; auto.
Qed.

Lemma isValid_spec (id : string) : isValid id = true ↔ hex24 id.
Proof.
  unfold isValid, hex24.
  rewrite andb_true_iff, Nat.eqb_eq, forallb_forall, Forall_forall.
  split; intros [Hl Hd]; (split; [exact Hl|]); intros c Hc.
  - apply is_hex_spec, Hd, list_elem_of_In, Hc.
  - apply is_hex_spec, Hd, list_elem_of_In, Hc.
Qed.

Lemma isValid_false_iff (id : string) : isValid id = false ↔ ¬ hex24 id.
Proof.
  rewrite <- isValid_spec. destruct (isValid id); split; intros; done.
Qed.

(** ** The access gate *)

Section gate.
Context `{JsNumber} `{!JsToNumber} `{!QueryEngine}.

Lemma truthy_str_true (o : option string) :
  truthy_str o = true ↔ ∃ v, o = Some v ∧ v ≠ "".
Proof.
  destruct o as [v|]; simpl.
  - destruct (String.eqb_spec v ""); simpl; split.
    + done.
    + intros (? & [= <-] & ?). done.
    + intros _. by exists v.
    + done.
  - split; [done|]. by intros (? & ? & ?).
Qed.

Lemma truthy_str_false (o : option string) :
  truthy_str o = false ↔ o = None ∨ o = Some "".
Proof.
  destruct o as [v|]; simpl.
  - destruct (String.eqb_spec v ""); simpl; split; try done.
    + intros _. right. by subst.
    + intros [?|[= ?]]; done.
  - split; auto.
Qed.

(** The middleware, by cases on the header. *)
Lemma apiKeyMiddleware_missing serverKey (req : Request) next :
  truthy_str (x_api_key req) = false →
  apiKeyMiddleware serverKey req next
  = Done (json 401 (BError "Unauthorized: API key missing")).
Proof. intros Hk. unfold apiKeyMiddleware. by rewrite Hk. Qed.

Lemma apiKeyMiddleware_wrong serverKey (req : Request) next :
  truthy_str (x_api_key req) = true → x_api_key req ≠ serverKey →
  apiKeyMiddleware serverKey req next
  = Done (json 403 (BError "Forbidden: Invalid API key")).
Proof.
  intros Hk Hne. unfold apiKeyMiddleware. rewrite Hk. simpl.
  by rewrite bool_decide_eq_false_2.
Qed.

Lemma apiKeyMiddleware_right serverKey (req : Request) next :
  truthy_str (x_api_key req) = true → x_api_key req = serverKey →
  apiKeyMiddleware serverKey req next = next.
Proof.
  intros Hk Heq. unfold apiKeyMiddleware. rewrite Hk. simpl.
  by rewrite bool_decide_eq_true_2.
Qed.

(** The gate has three outcomes. *)
Lemma serve_gated_cases serverKey r (req : Request) :
  gated r = true →
  (truthy_str (x_api_key req) = false ∧
   serve serverKey r req
   = Done (json 401 (BError "Unauthorized: API key missing")))
  ∨ (truthy_str (x_api_key req) = true ∧ x_api_key req ≠ serverKey ∧
     serve serverKey r req
     = Done (json 403 (BError "Forbidden: Invalid API key")))
  ∨ (truthy_str (x_api_key req) = true ∧ x_api_key req = serverKey ∧
     serve serverKey r req = route_handler r req).
Proof.
  intros Hg. unfold serve. rewrite Hg.
  destruct (truthy_str (x_api_key req)) eqn:Hk.
  - destruct (decide (x_api_key req = serverKey)) as [Heq|Hne].
    + right; right. by rewrite apiKeyMiddleware_right.
    + right; left. by rewrite apiKeyMiddleware_wrong.
  - left. by rewrite apiKeyMiddleware_missing.
Qed.

Lemma serve_open serverKey r (req : Request) :
  gated r = false → serve serverKey r req = route_handler r req.
Proof. intros Hg. unfold serve. by rewrite Hg. Qed.

(** No handler answers 401 or 403: these statuses come from the gate. *)
Lemma handler_status_not_auth r (req : Request) db gen :
  status (response (run db gen (route_handler r req))) ≠ 401%nat ∧
  status (response (run db gen (route_handler r req))) ≠ 403%nat.
Proof.
  destruct r; simpl;
    unfold get_products, get_product_by_id, post_products, get_items,
      get_item_by_id, post_items, put_item, patch_item, delete_item;
    repeat (match goal with
            | |- context [match ?x with _ => _ end] => destruct x eqn:?
            end; simpl; try done);
    unfold updated_reply, deleted_reply, found_reply;
    repeat (match goal with
            | |- context [match ?x with _ => _ end] => destruct x eqn:?
            end; simpl; try done).
Qed.

End gate.

(** ** Malformed identifiers *)

Section identifiers.
Context `{JsNumber} `{!JsToNumber} `{!QueryEngine}.

Lemma id_keyed_handler_invalid r (req : Request) :
  id_keyed r = true → isValid (params_id req) = false →
  (r = PutItem → is_Some (req_body req)) →
  ∃ msg, route_handler r req = Done (json 400 (BError msg)).
Proof.
  intros Hr Hid Hbody.
  destruct r; try discriminate Hr; simpl;
    unfold get_product_by_id, get_item_by_id, put_item, patch_item,
      delete_item; rewrite ?Hid; simpl; eauto.
  destruct (Hbody eq_refl) as [body ->]. simpl. eauto.
Qed.

(** X20: on the routes whose path carries an identifier, an identifier
    that is not a string of 24 hexadecimal digits makes the handler answer
    400 at once, for PUT provided the request has a parsed body.  Whatever
    the key sent, the request then issues no store call and leaves the
    database as it was; its status is 400 as soon as the route has no gate
    or the gate lets the request through (and 401 or 403 otherwise). *)
Theorem malformed_id_rejected serverKey r (req : Request) db gen :
  id_keyed r = true →
  ¬ hex24 (params_id req) →
  (r = PutItem → is_Some (req_body req)) →
  (∃ msg, route_handler r req = Done (json 400 (BError msg))) ∧
  calls (run db gen (route_handler r req)) = [] ∧
  db_after (run db gen (route_handler r req)) = db ∧
  calls (run db gen (serve serverKey r req)) = [] ∧
  db_after (run db gen (serve serverKey r req)) = db ∧
  (gated r = false
   ∨ (truthy_str (x_api_key req) = true ∧ x_api_key req = serverKey) →
   status (response (run db gen (serve serverKey r req))) = 400%nat) ∧
  (status (response (run db gen (serve serverKey r req))) = 400%nat
   ∨ status (response (run db gen (serve serverKey r req))) = 401%nat
   ∨ status (response (run db gen (serve serverKey r req))) = 403%nat).
Proof.
  intros Hr Hid Hbody. apply isValid_false_iff in Hid.
  destruct (id_keyed_handler_invalid r req Hr Hid Hbody) as [msg Hh].
  split; [by exists msg|]. rewrite Hh. simpl.
  split; [done|]. split; [done|].
  destruct (gated r) eqn:Hg.
  - destruct (serve_gated_cases serverKey r req Hg)
      as [[Hk ->]|[(Hk & Hne & ->)|(Hk & Heq & ->)]]; simpl.
    + repeat split; auto. intros [?|[? ?]]; congruence.
    + repeat split; auto. intros [?|[? ?]]; congruence.
    + rewrite Hh. simpl. repeat split; auto.
  - rewrite serve_open by done. rewrite Hh. simpl. repeat split; auto.
Qed.

End identifiers.

(** ** The gate, claim by claim *)

Section gate_claims.
Context `{JsNumber} `{!JsToNumber} `{!QueryEngine}.

(** C2 (amended): on the four gated routes the header decides first.  A
    header that is absent or empty gives 401; a non-empty header that
    differs from the configured secret gives 403; in both cases the
    handler does not run, whatever the identifier and the body are.  A
    non-empty header equal to the secret hands the request to the route
    handler, and only such a header does: a status other than 401 and 403
    means the header carried the secret, and a request carrying the secret
    is never answered 401 or 403. *)
Theorem gate_decides_first serverKey r (req : Request) db gen :
  gated r = true →
  (x_api_key req = None ∨ x_api_key req = Some "" →
   serve serverKey r req
   = Done (json 401 (BError "Unauthorized: API key missing"))) ∧
  (∀ v, x_api_key req = Some v → v ≠ "" → Some v ≠ serverKey →
   serve serverKey r req
   = Done (json 403 (BError "Forbidden: Invalid API key"))) ∧
  (∀ v, x_api_key req = Some v → v ≠ "" → Some v = serverKey →
   serve serverKey r req = route_handler r req) ∧
  (status (response (run db gen (serve serverKey r req))) ≠ 401%nat →
   status (response (run db gen (serve serverKey r req))) ≠ 403%nat →
   x_api_key req = serverKey ∧ serve serverKey r req = route_handler r req) ∧
  (authorized serverKey req →
   status (response (run db gen (serve serverKey r req))) ≠ 401%nat ∧
   status (response (run db gen (serve serverKey r req))) ≠ 403%nat).
Proof.
  intros Hg.
  destruct (serve_gated_cases serverKey r req Hg)
    as [[Hk Hs]|[(Hk & Hne & Hs)|(Hk & Heq & Hs)]].
  - split; [done|]. apply truthy_str_false in Hk.
    split; [intros v Hv Hnv _; destruct Hk as [Hk|Hk]; congruence|].
    split; [intros v Hv Hnv _; destruct Hk as [Hk|Hk]; congruence|].
    split; [rewrite Hs; simpl; done|].
    intros [Hk' _]. apply truthy_str_true in Hk' as (v & Hv & Hnv).
    destruct Hk as [Hk|Hk]; congruence.
  - split.
    { apply truthy_str_true in Hk as (v & Hv & Hnv).
      intros [Hk|Hk]; congruence. }
    split; [done|].
    split; [intros v' Hv' _ Heq; congruence|].
    split; [rewrite Hs; simpl; done|].
    intros [_ Heq]. done.
  - split.
    { apply truthy_str_true in Hk as (v & Hv & Hnv).
      intros [Hk|Hk]; congruence. }
    split; [intros v' Hv' _ Hne; congruence|].
    split; [done|]. split; [done|].
    intros _. rewrite Hs. apply handler_status_not_auth.
Qed.

(** C9 (amended): with [API_KEY] unset, every request on the four gated
    routes stops at the gate: 401 when the header is absent or empty, 403
    when it carries any non-empty value.  No handler runs, no store call is
    issued and the database is left as it was. *)
Theorem unset_key_locks_mutations r (req : Request) db gen :
  gated r = true →
  (x_api_key req = None ∨ x_api_key req = Some "" →
   serve None r req
   = Done (json 401 (BError "Unauthorized: API key missing"))) ∧
  (∀ v, x_api_key req = Some v → v ≠ "" →
   serve None r req = Done (json 403 (BError "Forbidden: Invalid API key"))) ∧
  (∃ resp, serve None r req = Done resp) ∧
  calls (run db gen (serve None r req)) = [] ∧
  db_after (run db gen (serve None r req)) = db ∧
  (status (response (run db gen (serve None r req))) = 401%nat
   ∨ status (response (run db gen (serve None r req))) = 403%nat).
Proof.
  intros Hg.
  destruct (serve_gated_cases None r req Hg)
    as [[Hk Hs]|[(Hk & Hne & Hs)|(Hk & Heq & Hs)]].
  - apply truthy_str_false in Hk. rewrite Hs. simpl. repeat split; eauto.
    intros v Hv Hnv. destruct Hk as [Hk|Hk]; congruence.
  - apply truthy_str_true in Hk as (v & Hv & Hnv). rewrite Hs. simpl.
    repeat split; eauto. intros [Hk|Hk]; congruence.
  - apply truthy_str_true in Hk as (v & Hv & Hnv). congruence.
Qed.

End gate_claims.

(** ** Handlers on well-formed requests *)

Section handlers.
Context `{JsNumber} `{!JsToNumber} `{!QueryEngine}.

Lemma serve_authorized serverKey r (req : Request) :
  authorized serverKey req → serve serverKey r req = route_handler r req.
Proof.
  intros [Hk Heq]. unfold serve. destruct (gated r); [|done].
  by apply apiKeyMiddleware_right.
Qed.

Lemma get_item_by_id_valid (req : Request) :
  isValid (params_id req) = true →
  get_item_by_id req
  = Await (FindOne Items (fromHex (params_id req)))
          (found_reply "Item not found") server_error.
Proof. intros Hid. unfold get_item_by_id. by rewrite Hid. Qed.

Lemma get_product_by_id_valid (req : Request) :
  isValid (params_id req) = true →
  get_product_by_id req
  = Await (FindOne Products (fromHex (params_id req)))
          (found_reply "Product not found") server_error.
Proof. intros Hid. unfold get_product_by_id. by rewrite Hid. Qed.

Lemma post_items_valid (req : Request) (body : Doc) name description :
  req_body req = Some body →
  body !! "name" = Some name →
  body !! "description" = Some description →
  truthy name = true → truthy description = true →
  post_items req
  = Await (InsertOne Items {[ "name" := name; "description" := description ]})
          (created_reply "Item created" "id") server_error.
Proof.
  intros Hb Hn Hd Htn Htd. unfold post_items.
  by rewrite Hb, Hn, Hd, Htn, Htd.
Qed.


Lemma put_item_valid (req : Request) (body : Doc) name description :
  isValid (params_id req) = true →
  req_body req = Some body →
  body !! "name" = Some name →
  body !! "description" = Some description →
  truthy name = true → truthy description = true →
  put_item req
  = Await (UpdateOne Items (fromHex (params_id req))
             {[ "name" := name; "description" := description ]})
          (updated_reply "Item fully updated") server_error.
Proof.
  intros Hid Hb Hn Hd Htn Htd. unfold put_item.
  by rewrite Hb, Hid, Hn, Hd, Htn, Htd.
Qed.

Lemma patch_item_empty (req : Request) :
  isValid (params_id req) = true →
  req_body req = None ∨ req_body req = Some ∅ →
  patch_item req = Done (json 400 (BError "No fields provided for update")).
Proof.
  intros Hid [Hb|Hb]; unfold patch_item; rewrite Hid, Hb; simpl; [done|].
  by rewrite map_size_empty.
Qed.

Lemma patch_item_nonempty (req : Request) (body : Doc) :
  isValid (params_id req) = true →
  req_body req = Some body → body ≠ ∅ →
  patch_item req
  = Await (UpdateOne Items (fromHex (params_id req)) body)
          (updated_reply "Item partially updated") server_error.
Proof.
  intros Hid Hb Hne. unfold patch_item. rewrite Hid, Hb. simpl.
  destruct (size body) eqn:Hs; [|done].
  by apply map_size_empty_iff in Hs.
Qed.

Lemma delete_item_valid (req : Request) :
  isValid (params_id req) = true →
  delete_item req
  = Await (DeleteOne Items (fromHex (params_id req)))
          deleted_reply server_error.
Proof. intros Hid. unfold delete_item. by rewrite Hid. Qed.

(** The store calls, on a connected database. *)

Lemma run_find_one (d : Db) gen c i k catch :
  run (Some d) gen (Await (FindOne c i) k catch)
  = {| response := k (collection d c !! i); db_after := Some d;
       calls := [Log (FindOne c i)] |}.
Proof. done. Qed.

Lemma run_insert_fresh (d : Db) gen c (doc : Doc) k catch :
  doc !! "_id" = None → collection d c !! gen = None →
  run (Some d) gen (Await (InsertOne c doc) k catch)
  = {| response := k gen;
       db_after := Some (with_collection d c
                           (<[gen := <["_id" := VId gen]> doc]>
                              (collection d c)));
       calls := [Log (InsertOne c doc)] |}.
Proof. intros Hd Hg. simpl. by rewrite Hd, Hg. Qed.

Lemma run_update_found (d : Db) gen c i (set old : Doc) k catch :
  collection d c !! i = Some old →
  rewrites_id set i = false →
  run (Some d) gen (Await (UpdateOne c i set) k catch)
  = {| response := k 1%nat;
       db_after := Some (with_collection d c
                           (<[i := set ∪ old]> (collection d c)));
       calls := [Log (UpdateOne c i set)] |}.
Proof. intros Hi Hset. simpl. by rewrite Hi, Hset. Qed.

Lemma run_update_rejected (d : Db) gen c i (set old : Doc) k catch :
  collection d c !! i = Some old →
  rewrites_id set i = true →
  run (Some d) gen (Await (UpdateOne c i set) k catch)
  = {| response := catch; db_after := Some d;
       calls := [Log (UpdateOne c i set)] |}.
Proof. intros Hi Hset. simpl. by rewrite Hi, Hset. Qed.

Lemma rewrites_id_unnamed (set : Doc) i :
  set !! "_id" = None → rewrites_id set i = false.
Proof. intros Hset. unfold rewrites_id. by rewrite Hset. Qed.

Lemma run_update_missing (d : Db) gen c i (set : Doc) k catch :
  collection d c !! i = None →
  run (Some d) gen (Await (UpdateOne c i set) k catch)
  = {| response := k 0%nat; db_after := Some d;
       calls := [Log (UpdateOne c i set)] |}.
Proof. intros Hi. simpl. by rewrite Hi. Qed.

Lemma run_delete_found (d : Db) gen c i (old : Doc) k catch :
  collection d c !! i = Some old →
  run (Some d) gen (Await (DeleteOne c i) k catch)
  = {| response := k 1%nat;
       db_after := Some (with_collection d c (delete i (collection d c)));
       calls := [Log (DeleteOne c i)] |}.
Proof. intros Hi. simpl. by rewrite Hi. Qed.

Lemma run_delete_missing (d : Db) gen c i k catch :
  collection d c !! i = None →
  run (Some d) gen (Await (DeleteOne c i) k catch)
  = {| response := k 0%nat; db_after := Some d;
       calls := [Log (DeleteOne c i)] |}.
Proof. intros Hi. simpl. by rewrite Hi. Qed.

Lemma collection_with_collection (d : Db) c m :
  collection (with_collection d c m) c = m.
Proof. by destruct c. Qed.

Lemma collection_with_collection_ne (d : Db) c c' m :
  c ≠ c' → collection (with_collection d c m) c' = collection d c'.
Proof. by destruct c, c'. Qed.

(** [$set]: the named fields are overridden, the others are kept. *)
Lemma set_lookup_named (set old : Doc) k v :
  set !! k = Some v → (set ∪ old) !! k = Some v.
Proof. intros Hk. by apply lookup_union_Some_l. Qed.

Lemma set_lookup_other (set old : Doc) k :
  set !! k = None → (set ∪ old) !! k = old !! k.
Proof. intros Hk. by apply lookup_union_r. Qed.

Lemma set_twice (set old : Doc) : set ∪ (set ∪ old) = set ∪ old.
Proof. by rewrite (assoc_L (∪)), (idemp_L (∪)). Qed.

Lemma name_description_lookup_other (name description : Value) k :
  k ≠ "name" → k ≠ "description" →
  ({[ "name" := name; "description" := description ]} : Doc) !! k = None.
Proof.
  intros Hn Hd. rewrite lookup_insert_ne by done.
  by rewrite lookup_singleton_ne.
Qed.

Lemma name_description_keeps_id (name description : Value) i :
  rewrites_id {[ "name" := name; "description" := description ]} i = false.
Proof.
  apply rewrites_id_unnamed. by apply name_description_lookup_other.
Qed.

End handlers.

(** ** Updates and deletions of items *)

Section mutations.
Context `{JsNumber} `{!JsToNumber} `{!QueryEngine}.

(** C4 (amended): a PUT with a well-formed identifier and truthy [name] and
    [description] issues one [updateOne] whose [$set] names exactly these
    two fields, taken from the body.  On an existing item the answer is
    200; the item then has the submitted name and description, every other
    field of it is as before (whether or not the body names it), and no
    other document changes. *)
Theorem put_sets_name_and_description serverKey (req : Request) (d : Db) gen
    (body : Doc) name description old :
  authorized serverKey req →
  isValid (params_id req) = true →
  req_body req = Some body →
  body !! "name" = Some name →
  body !! "description" = Some description →
  truthy name = true → truthy description = true →
  items d !! fromHex (params_id req) = Some old →
  ∃ new d',
    run (Some d) gen (serve serverKey PutItem req)
    = {| response := json 200 (BMessage "Item fully updated");
         db_after := Some d';
         calls := [Log (UpdateOne Items (fromHex (params_id req))
                          {[ "name" := name; "description" := description ]})]
      |} ∧
    items d' !! fromHex (params_id req) = Some new ∧
    new !! "name" = Some name ∧
    new !! "description" = Some description ∧
    (∀ k, k ≠ "name" → k ≠ "description" → new !! k = old !! k) ∧
    (∀ j, j ≠ fromHex (params_id req) → items d' !! j = items d !! j) ∧
    products d' = products d.
Proof.
  intros Hauth Hid Hb Hn Hd Htn Htd Hold.
  rewrite (serve_authorized _ _ _ Hauth). simpl route_handler.
  rewrite (put_item_valid req body name description) by done.
  rewrite (run_update_found d gen Items _ _ old)
    by (done || apply name_description_keeps_id).
  eexists _, _. split; [reflexivity|]. simpl.
  rewrite lookup_insert_eq. split; [reflexivity|].
  split; [by apply set_lookup_named; rewrite lookup_insert_eq|].
  split.
  { apply set_lookup_named. rewrite lookup_insert_ne by done.
    by rewrite lookup_singleton_eq. }
  split.
  { intros k Hkn Hkd. apply set_lookup_other.
    by apply name_description_lookup_other. }
  split; [|done].
  intros j Hj. by rewrite lookup_insert_ne.
Qed.

(** C8: on an existing item, a PUT with truthy [name] and [description]
    sent twice in a row answers 200 both times, and the database after the
    second request is the database after the first. *)
Theorem put_twice_same_state serverKey (req : Request) (d : Db) gen gen'
    (body : Doc) name description old :
  authorized serverKey req →
  isValid (params_id req) = true →
  req_body req = Some body →
  body !! "name" = Some name →
  body !! "description" = Some description →
  truthy name = true → truthy description = true →
  items d !! fromHex (params_id req) = Some old →
  let first := run (Some d) gen (serve serverKey PutItem req) in
  let second := run (db_after first) gen' (serve serverKey PutItem req) in
  status (response first) = 200%nat ∧
  status (response second) = 200%nat ∧
  db_after second = db_after first ∧
  (∃ d', db_after first = Some d' ∧
         items d' !! fromHex (params_id req)
         = Some ({[ "name" := name; "description" := description ]} ∪ old)).
Proof.
  intros Hauth Hid Hb Hn Hd Htn Htd Hold. cbv zeta.
  rewrite (serve_authorized _ _ _ Hauth). simpl route_handler.
  rewrite (put_item_valid req body name description) by done.
  rewrite (run_update_found d gen Items _ _ old)
    by (done || apply name_description_keeps_id).
  cbn [db_after response].
  erewrite run_update_found;
    [|rewrite collection_with_collection; apply lookup_insert_eq
     |apply name_description_keeps_id].
  cbn [db_after response]. split; [done|]. split; [done|]. split.
  - f_equal. simpl. f_equal. by rewrite insert_insert_eq, set_twice.
  - eexists. split; [reflexivity|]. simpl. apply lookup_insert_eq.
Qed.

(** C7: a DELETE with a well-formed identifier and the right key issues
    exactly one store call, the [deleteOne] itself.  When no item has the
    identifier the answer is 404 and nothing changes; otherwise the item
    is removed, nothing else changes, and the answer is 204 with an empty
    body.  Either way a GET on the same identifier right after answers
    404. *)
Theorem delete_then_get serverKey (req : Request) (d : Db) gen :
  authorized serverKey req →
  isValid (params_id req) = true →
  let i := fromHex (params_id req) in
  let o := run (Some d) gen (serve serverKey DeleteItem req) in
  calls o = [Log (DeleteOne Items i)] ∧
  (items d !! i = None →
   response o = json 404 (BError "Item not found") ∧ db_after o = Some d) ∧
  (is_Some (items d !! i) →
   response o = {| status := 204; body := BEmpty |} ∧
   db_after o
   = Some {| products := products d; items := delete i (items d) |}) ∧
  (∀ serverKey' gen' (req' : Request),
     params_id req' = params_id req →
     response (run (db_after o) gen' (serve serverKey' GetItemById req'))
     = json 404 (BError "Item not found")).
Proof.
  intros Hauth Hid. cbv zeta.
  rewrite (serve_authorized _ _ _ Hauth). simpl route_handler.
  rewrite delete_item_valid by done.
  destruct (items d !! fromHex (params_id req)) as [old|] eqn:Hold.
  - rewrite (run_delete_found d gen Items _ old) by done.
    cbn [calls response db_after]. split; [done|]. split; [done|].
    split; [done|].
    intros serverKey' gen' req' Hreq'.
    rewrite serve_open by done. simpl route_handler.
    rewrite get_item_by_id_valid by (by rewrite Hreq').
    rewrite run_find_one, Hreq'. simpl.
    by rewrite lookup_delete_eq.
  - rewrite (run_delete_missing d gen Items) by done.
    cbn [calls response db_after]. split; [done|]. split; [done|].
    split; [by intros [? ?]|].
    intros serverKey' gen' req' Hreq'.
    rewrite serve_open by done. simpl route_handler.
    rewrite get_item_by_id_valid by (by rewrite Hreq').
    rewrite run_find_one, Hreq'. simpl. by rewrite Hold.
Qed.

(** C6 (amended): a PATCH with a well-formed identifier and an empty body,
    be it an object without fields or no parsed body at all, is answered
    400 by the handler, with no store call and no change to the database,
    whatever key is sent.  With a non-empty body the handler issues one
    [updateOne] whose [$set] is the body as received; when the body does
    not name [_id], on an existing item the answer is 200, every field of
    the body is in the item with the value sent, whatever its name, and the
    fields the body does not name are as before. *)
Theorem patch_empty_or_merge serverKey (req : Request) (d : Db) gen :
  isValid (params_id req) = true →
  (req_body req = None ∨ req_body req = Some ∅ →
   patch_item req = Done (json 400 (BError "No fields provided for update")) ∧
   (∀ db, calls (run db gen (serve serverKey PatchItem req)) = [] ∧
          db_after (run db gen (serve serverKey PatchItem req)) = db) ∧
   (authorized serverKey req →
    response (run (Some d) gen (serve serverKey PatchItem req))
    = json 400 (BError "No fields provided for update"))) ∧
  (∀ body : Doc,
   req_body req = Some body → body ≠ ∅ →
   patch_item req
   = Await (UpdateOne Items (fromHex (params_id req)) body)
           (updated_reply "Item partially updated") server_error ∧
   (body !! "_id" = None → authorized serverKey req →
    ∀ old, items d !! fromHex (params_id req) = Some old →
    ∃ new d',
      run (Some d) gen (serve serverKey PatchItem req)
      = {| response := json 200 (BMessage "Item partially updated");
           db_after := Some d';
           calls := [Log (UpdateOne Items (fromHex (params_id req)) body)] |} ∧
      items d' !! fromHex (params_id req) = Some new ∧
      (∀ k v, body !! k = Some v → new !! k = Some v) ∧
      (∀ k, body !! k = None → new !! k = old !! k) ∧
      (∀ j, j ≠ fromHex (params_id req) → items d' !! j = items d !! j) ∧
      products d' = products d)).
Proof.
  intros Hid. split.
  - intros Hb. pose proof (patch_item_empty req Hid Hb) as Hp.
    split; [done|]. split.
    + intros db.
      destruct (serve_gated_cases serverKey PatchItem req eq_refl)
        as [[_ ->]|[(_ & _ & ->)|(_ & _ & ->)]]; simpl route_handler;
        rewrite ?Hp; done.
    + intros Hauth. rewrite (serve_authorized _ _ _ Hauth).
      simpl route_handler. by rewrite Hp.
  - intros body Hb Hne.
    pose proof (patch_item_nonempty req body Hid Hb Hne) as Hp.
    split; [done|]. intros Hno Hauth old Hold.
    rewrite (serve_authorized _ _ _ Hauth). simpl route_handler.
    rewrite Hp.
    rewrite (run_update_found d gen Items _ _ old)
      by (done || by apply rewrites_id_unnamed).
    eexists _, _. split; [reflexivity|]. simpl.
    rewrite lookup_insert_eq. split; [reflexivity|].
    split; [intros k v Hk; by apply set_lookup_named|].
    split; [intros k Hk; by apply set_lookup_other|].
    split; [|done]. intros j Hj. by rewrite lookup_insert_ne.
Qed.

End mutations.

(** ** Creating documents *)

Section creation.
Context `{JsNumber} `{!JsToNumber} `{!QueryEngine}.

Lemma new_item_no_id (name description : Value) :
  ({[ "name" := name; "description" := description ]} : Doc) !! "_id" = None.
Proof. by apply name_description_lookup_other. Qed.





End creation.

(** ** The product listing query *)

(** [split] cuts at every separator and nowhere else: gluing the pieces
    with the separator gives the string back, and no piece holds one. *)
Lemma split_nonempty (sep : ascii) (s : string) : split sep s ≠ [].
Proof.
  destruct s as [|c s]; simpl; [done|].
  destruct (Ascii.eqb c sep); [done|]. by destruct (split sep s).
Qed.

Lemma concat_split (sep : ascii) (s : string) :
  String.concat (String sep EmptyString) (split sep s) = s.
Proof.
  induction s as [|c s IH]; simpl; [done|].
  destruct (Ascii.eqb_spec c sep) as [->|Hne].
  - pose proof (split_nonempty sep s) as Hs.
    destruct (split sep s) as [|w ws] eqn:Hsplit; [done|].
    simpl. by rewrite <- IH.
  - pose proof (split_nonempty sep s) as Hs.
    destruct (split sep s) as [|w ws] eqn:Hsplit; [done|].
    rewrite <- IH. simpl. by destruct ws.
Qed.

Lemma split_pieces_no_sep (sep : ascii) (s : string) :
  Forall (fun w => ¬ In sep (list_ascii_of_string w)) (split sep s).
Proof.
  induction s as [|c s IH]; simpl.
  - constructor; [by intros []|constructor].
  - destruct (Ascii.eqb_spec c sep) as [->|Hne].
    + constructor; [by intros []|done].
    + pose proof (split_nonempty sep s) as Hs.
      destruct (split sep s) as [|w ws]; [done|].
      inversion IH as [|? ? Hw Hws]; subst.
      constructor; [|done]. simpl. intros [?|?]; [congruence|done].
Qed.

(** The keys of the projection object after the [forEach]. *)
Lemma fold_assign_one_lookup (fields : list string) (p : Projection) k :
  fold_left assign_one fields p !! k
  = if decide (k ∈ fields ∧ k ≠ "__proto__") then Some 1%nat else p !! k.
Proof.
  revert p. induction fields as [|f fields IH]; intros p; cbn [fold_left].
  - destruct (decide _) as [[Hk _]|_]; [|done]. by inversion Hk.
  - rewrite IH. unfold assign_one.
    destruct (String.eqb_spec f "__proto__") as [->|Hf].
    + destruct (decide (k ∈ fields ∧ _)) as [Hk|Hk],
        (decide (k ∈ "__proto__" :: fields ∧ _)) as [Hk'|Hk'];
        first [reflexivity | exfalso; rewrite elem_of_cons in *; intuition congruence].
    + destruct (decide (k = f)) as [->|Hkf].
      * rewrite lookup_insert_eq.
        destruct (decide (f ∈ fields ∧ _)) as [Hk|Hk],
          (decide (f ∈ f :: fields ∧ _)) as [Hk'|Hk'];
          first [reflexivity | exfalso; rewrite elem_of_cons in *; intuition congruence].
      * rewrite lookup_insert_ne by done.
        destruct (decide (k ∈ fields ∧ _)) as [Hk|Hk],
          (decide (k ∈ f :: fields ∧ _)) as [Hk'|Hk'];
          first [reflexivity | exfalso; rewrite elem_of_cons in *; intuition congruence].
Qed.

Section listing.
Context `{JsNumber} `{!JsToNumber} `{!QueryEngine}.

Lemma build_filter_category (category minPrice : option Value) c :
  filter_category (build_filter category minPrice) = Some c
  ↔ category = Some c ∧ truthy c = true.
Proof.
  unfold build_filter. simpl. destruct category as [v|]; simpl.
  - destruct (truthy v) eqn:Hv; split.
    + by intros [= <-].
    + by intros [[= <-] _].
    + done.
    + intros [[= <-] ?]. congruence.
  - split; [done|]. by intros [? _].
Qed.

Lemma build_filter_price (category minPrice : option Value) n :
  filter_price_gte (build_filter category minPrice) = Some n
  ↔ ∃ m, minPrice = Some m ∧ truthy m = true ∧ n = Number m.
Proof.
  unfold build_filter. simpl. destruct minPrice as [v|]; simpl.
  - destruct (truthy v) eqn:Hv; split.
    + intros [= <-]. by exists v.
    + by intros (m & [= <-] & _ & ->).
    + done.
    + intros (m & [= <-] & ? & _). congruence.
  - split; [done|]. by intros (? & ? & _).
Qed.

Lemma build_sort_price (sort : option Value) :
  (sort = Some (VStr "price") → build_sort sort = Some [("price", 1%Z)]) ∧
  (sort ≠ Some (VStr "price") → build_sort sort = None).
Proof.
  unfold build_sort, is_price. split.
  - by intros ->.
  - intros Hne. destruct sort as [[| | |s| | |]|]; try done.
    destruct (String.eqb_spec s "price") as [->|]; done.
Qed.

Lemma build_projection_string s :
  s ≠ "" →
  build_projection (Some (VStr s))
  = Some (Some (fold_left assign_one (split "," s) ∅)).
Proof.
  intros Hs. unfold build_projection. simpl.
  by destruct (String.eqb_spec s "").
Qed.

Lemma build_projection_falsy (fields : option Value) :
  truthy_opt fields = false → build_projection fields = Some None.
Proof. intros Hf. unfold build_projection. by rewrite Hf. Qed.

Lemma build_projection_throws (fields : option Value) :
  truthy_opt fields = true → (∀ s, fields ≠ Some (VStr s)) →
  build_projection fields = None.
Proof.
  intros Hf Hs. unfold build_projection. rewrite Hf.
  destruct fields as [[| | |s| | |]|]; try done. by destruct (Hs s).
Qed.

(** C5 (amended): when [fields] is absent, empty or one string, GET
    /api/products issues one [find] on the products.  Its filter has a
    category equality exactly when [category] is given and truthy, and an
    inclusive lower bound on the price, [$gte] of [Number(minPrice)],
    exactly when [minPrice] is given and truthy; the two are independent
    keys of the same filter.  A projection is passed exactly when [fields]
    is truthy, and its keys are exactly the comma-separated pieces of
    [fields], each with value 1, a piece [__proto__] adding no key.  The
    sort is ascending on the price exactly when [sort] is the string
    ["price"], and absent otherwise.  When [fields] is truthy and not a
    string, the handler answers 500 and issues no query. *)
Theorem products_query (req : Request) :
  let category := query req !! "category" in
  let minPrice := query req !! "minPrice" in
  let sort := query req !! "sort" in
  let fields := query req !! "fields" in
  (fields_splittable fields →
   ∃ filter projection order,
     get_products req
     = Await (Find Products filter projection order)
             (list_reply "products") server_error ∧
     (∀ c, filter_category filter = Some c
           ↔ category = Some c ∧ truthy c = true) ∧
     (∀ n, filter_price_gte filter = Some n
           ↔ ∃ m, minPrice = Some m ∧ truthy m = true ∧ n = Number m) ∧
     (is_Some projection ↔ truthy_opt fields = true) ∧
     (∀ s p, fields = Some (VStr s) → projection = Some p →
        ∀ k, p !! k = if decide (k ∈ split "," s ∧ k ≠ "__proto__")
                      then Some 1%nat else None) ∧
     (sort = Some (VStr "price") → order = Some [("price", 1%Z)]) ∧
     (sort ≠ Some (VStr "price") → order = None)) ∧
  (truthy_opt fields = true → (∀ s, fields ≠ Some (VStr s)) →
   get_products req = Done server_error ∧
   ∀ db gen, calls (run db gen (get_products req)) = []).
Proof.
  cbv zeta. split.
  - intros Hf.
    exists (build_filter (query req !! "category") (query req !! "minPrice")).
    assert (Hp : ∃ p, build_projection (query req !! "fields") = Some p ∧
              (is_Some p ↔ truthy_opt (query req !! "fields") = true) ∧
              (∀ s q, query req !! "fields" = Some (VStr s) → p = Some q →
                 q = fold_left assign_one (split "," s) ∅)).
    { destruct Hf as [Hf|[s Hf]].
      - exists None. rewrite build_projection_falsy by done.
        split; [done|]. split.
        + split; [by intros [? ?]|congruence].
        + done.
      - rewrite Hf. destruct (String.eqb_spec s "") as [->|Hs].
        + exists None. split; [done|]. split.
          * split; [by intros [? ?]|done].
          * done.
        + exists (Some (fold_left assign_one (split "," s) ∅)).
          rewrite build_projection_string by done.
          split; [done|]. split.
          * split; [intros _|by eauto]. simpl.
            by destruct (String.eqb_spec s "").
          * by intros s' q [= <-] [= <-]. }
    destruct Hp as (p & Hp & Hsome & Hkeys).
    exists p, (build_sort (query req !! "sort")).
    split; [unfold get_products; by rewrite Hp|].
    split; [intros c; apply build_filter_category|].
    split; [intros n; apply build_filter_price|].
    split; [done|]. split.
    + intros s q Hs Hq k. rewrite (Hkeys s q Hs Hq).
      rewrite fold_assign_one_lookup, lookup_empty. done.
    + apply build_sort_price.
  - intros Hf Hs. unfold get_products.
    rewrite build_projection_throws by done. done.
Qed.

End listing.

(** ** Properties of the whole route table *)

Section table.
Context `{JsNumber} `{!JsToNumber} `{!QueryEngine}.

(** Case analysis on everything a handler branches on. *)
Ltac handler_cases :=
  unfold get_products, get_product_by_id, post_products, get_items,
    get_item_by_id, post_items, put_item, patch_item, delete_item;
  repeat (match goal with
          | |- context [match ?x with _ => _ end] =>
              lazymatch x with
              | context [match _ with _ => _ end] => fail
              | _ => destruct x eqn:?
              end
          end; simpl; try done);
  try done.

(** Every [catch] block sends the same response. *)
Lemma handler_catch r (req : Request) :
  match route_handler r req with
  | Done _ => True
  | Await _ _ catch => catch = server_error
  end.
Proof. destruct r; simpl; handler_cases. Qed.

(** Every handler addresses the collection of its route. *)
Lemma handler_collection r (req : Request) :
  match route_handler r req with
  | Done _ => True
  | Await c _ _ => call_coll c = if on_items r then Items else Products
  end.
Proof. destruct r; simpl; handler_cases. Qed.

(** A store call changes at most its own collection. *)
Lemma exec_other_collection {T} gen (d d' : Db) (c : Call T) (x : T) c' :
  exec gen d c = Some (x, d') → c' ≠ call_coll c →
  collection d' c' = collection d c'.
Proof.
  intros Hexec Hc'.
  destruct c as [c| c i| c doc| c i set| c i]; simpl in *.
  - by injection Hexec as _ <-.
  - by injection Hexec as _ <-.
  - destruct (doc !! "_id"); [done|]. destruct (collection d c !! gen); [done|].
    injection Hexec as _ <-. by apply collection_with_collection_ne.
  - destruct (collection d c !! i); [destruct (rewrites_id set i); [done|]|];
      injection Hexec as _ <-; [|done].
    by apply collection_with_collection_ne.
  - destruct (collection d c !! i); injection Hexec as _ <-; [|done].
    by apply collection_with_collection_ne.
Qed.

(** The reading calls leave the database as it is. *)
Lemma run_read_only (db : option Db) gen (h : Handler) :
  match h with
  | Done _ | Await (Find _ _ _ _) _ _ | Await (FindOne _ _) _ _ => True
  | _ => False
  end →
  db_after (run db gen h) = db.
Proof.
  destruct h as [r|T c k catch]; [done|].
  destruct c; try done; intros _; by destruct db.
Qed.

(** X1: the four GET routes of the API never change the database, whatever
    the request, the key and the state of the connection. *)
Theorem get_routes_keep_database serverKey r (req : Request) db gen :
  read_only r = true →
  db_after (run db gen (serve serverKey r req)) = db.
Proof.
  intros Hr. rewrite serve_open by (by destruct r).
  apply run_read_only.
  destruct r; try discriminate Hr; simpl; handler_cases.
Qed.

(** X2: while the database handle is still undefined, no request reaches
    the store and none succeeds.  The answer is 500, with the generic
    message of the [catch] block or, when the handler throws on a missing
    body, with the error page of the framework, unless the gate or the
    validation has already answered 400, 401 or 403. *)
Theorem unconnected_database_fails serverKey r (req : Request) gen :
  calls (run None gen (serve serverKey r req)) = [] ∧
  db_after (run None gen (serve serverKey r req)) = None ∧
  (response (run None gen (serve serverKey r req)) = server_error
   ∨ response (run None gen (serve serverKey r req)) = uncaught_error
   ∨ status (response (run None gen (serve serverKey r req))) = 400%nat
   ∨ status (response (run None gen (serve serverKey r req))) = 401%nat
   ∨ status (response (run None gen (serve serverKey r req))) = 403%nat).
Proof.
  assert (Hh : calls (run None gen (route_handler r req)) = [] ∧
    db_after (run None gen (route_handler r req)) = None ∧
    (response (run None gen (route_handler r req)) = server_error
     ∨ response (run None gen (route_handler r req)) = uncaught_error
     ∨ status (response (run None gen (route_handler r req))) = 400%nat)).
  { destruct r; simpl; handler_cases; auto 10. }
  destruct (gated r) eqn:Hg.
  - destruct (serve_gated_cases serverKey r req Hg)
      as [[_ ->]|[(_ & _ & ->)|(_ & _ & ->)]]; simpl; [auto 10..|].
    destruct Hh as (? & ? & [?|[?|?]]); auto 10.
  - rewrite serve_open by done. destruct Hh as (? & ? & [?|[?|?]]); auto 10.
Qed.

(** X3: on every route, when the store rejects the call that the request
    has reached, the answer is 500 with the generic message: every [catch]
    block sends it.  This is what [run] does whenever the store of the
    model rejects the call. *)
Theorem store_failure_answers_500 serverKey r (req : Request) db :
  (calls (run_rejecting db (serve serverKey r req)) ≠ [] →
   response (run_rejecting db (serve serverKey r req)) = server_error) ∧
  (∀ d gen,
     store_rejects gen d (serve serverKey r req) = true →
     run (Some d) gen (serve serverKey r req)
     = run_rejecting (Some d) (serve serverKey r req)).
Proof.
  assert (Hcatch : match serve serverKey r req with
                   | Done _ => True
                   | Await _ _ catch => catch = server_error
                   end).
  { destruct (gated r) eqn:Hg.
    - destruct (serve_gated_cases serverKey r req Hg)
        as [[_ ->]|[(_ & _ & ->)|(_ & _ & ->)]]; [done..|].
      apply handler_catch.
    - rewrite serve_open by done. apply handler_catch. }
  split.
  - destruct (serve serverKey r req) as [resp|T c k catch]; [done|].
    destruct db as [d|]; simpl; [|done]. by intros _.
  - intros d gen Hrej.
    destruct (serve serverKey r req) as [resp|T c k catch]; [done|].
    simpl in *. by destruct (exec gen d c) as [[x d']|].
Qed.

(** X4: a request on a route of one collection leaves the other collection
    as it is. *)
Theorem collections_are_separate serverKey r (req : Request) (d : Db) gen :
  ∃ d', db_after (run (Some d) gen (serve serverKey r req)) = Some d' ∧
        (on_items r = true → products d' = products d) ∧
        (on_items r = false → items d' = items d).
Proof.
  assert (Hh : ∃ d', db_after (run (Some d) gen (route_handler r req))
                     = Some d' ∧
                 (on_items r = true → products d' = products d) ∧
                 (on_items r = false → items d' = items d)).
  { pose proof (handler_collection r req) as Hcoll.
    destruct (route_handler r req) as [resp|T c k catch];
      [by exists d|]. simpl.
    destruct (exec gen d c) as [[x d']|] eqn:Hexec; [|by exists d].
    exists d'. split; [done|]. split; intros Hr; rewrite Hr in Hcoll.
    - apply (exec_other_collection gen d d' c x Products Hexec).
      by rewrite Hcoll.
    - apply (exec_other_collection gen d d' c x Items Hexec).
      by rewrite Hcoll. }
  destruct (gated r) eqn:Hg.
  - destruct (serve_gated_cases serverKey r req Hg)
      as [[_ ->]|[(_ & _ & ->)|(_ & _ & ->)]]; [by exists d..|done].
  - by rewrite serve_open.
Qed.

(** X5: the routes without the middleware do not look at the key: the
    outcome is the same whatever the header and the configured secret are,
    and it is never 401 or 403. *)
Theorem open_routes_ignore_key serverKey serverKey' key' r (req : Request)
    db gen :
  gated r = false →
  run db gen (serve serverKey r req)
  = run db gen (serve serverKey' r (with_key key' req)) ∧
  status (response (run db gen (serve serverKey r req))) ≠ 401%nat ∧
  status (response (run db gen (serve serverKey r req))) ≠ 403%nat.
Proof.
  intros Hg. rewrite !serve_open by done. split.
  - by destruct r.
  - apply handler_status_not_auth.
Qed.

(** X6: every answer of a route carries one of the status codes written
    for that route. *)
Theorem status_in_route_table serverKey r (req : Request) db gen :
  status (response (run db gen (serve serverKey r req))) ∈ statuses r.
Proof.
  assert (Hh : status (response (run db gen (route_handler r req)))
               ∈ statuses r).
  { destruct db as [d|]; destruct r; simpl; handler_cases;
      unfold found_reply, updated_reply, deleted_reply; handler_cases;
      solve [repeat (first [apply list_elem_of_here
                           | apply list_elem_of_further])]. }
  destruct (gated r) eqn:Hg.
  - destruct (serve_gated_cases serverKey r req Hg)
      as [[_ ->]|[(_ & _ & ->)|(_ & _ & ->)]]; [| |done];
      destruct r; try discriminate Hg; simpl;
      repeat (first [apply list_elem_of_here | apply list_elem_of_further]).
  - by rewrite serve_open.
Qed.

(** A store call changes at most its target. *)
Lemma exec_frame {T} gen (d d' : Db) (c : Call T) (x : T) c' j :
  exec gen d c = Some (x, d') → Some j ≠ call_target gen c →
  collection d' c' !! j = collection d c' !! j.
Proof.
  intros Hexec Hj.
  destruct c as [c| c i| c doc| c i set| c i]; simpl in *.
  - by injection Hexec as _ <-.
  - by injection Hexec as _ <-.
  - destruct (doc !! "_id"); [done|]. destruct (collection d c !! gen); [done|].
    injection Hexec as _ <-.
    destruct c, c'; simpl; try done; apply lookup_insert_ne; congruence.
  - destruct (collection d c !! i); [destruct (rewrites_id set i); [done|]|];
      injection Hexec as _ <-; [|done].
    destruct c, c'; simpl; try done; apply lookup_insert_ne; congruence.
  - destruct (collection d c !! i); injection Hexec as _ <-; [|done].
    destruct c, c'; simpl; try done; apply lookup_delete_ne; congruence.
Qed.

Lemma handler_target r (req : Request) gen j :
  (id_keyed r = true → j ≠ fromHex (params_id req)) →
  (id_keyed r = false → j ≠ gen) →
  match route_handler r req with
  | Done _ => True
  | Await c _ _ => Some j ≠ call_target gen c
  end.
Proof.
  intros Hid Hgen.
  destruct r; simpl in *; handler_cases;
    intros [= Hj]; first [by apply Hid | by apply Hgen].
Qed.

(** X17: a request changes at most one document: the one its path names,
    or the one it creates.  Every other document of both collections is as
    before. *)
Theorem one_document_at_most serverKey r (req : Request) (d : Db) gen :
  ∃ d', db_after (run (Some d) gen (serve serverKey r req)) = Some d' ∧
    ∀ c j,
      (id_keyed r = true → j ≠ fromHex (params_id req)) →
      (id_keyed r = false → j ≠ gen) →
      collection d' c !! j = collection d c !! j.
Proof.
  assert (Hh : ∃ d', db_after (run (Some d) gen (route_handler r req))
                     = Some d' ∧
    ∀ c j, (id_keyed r = true → j ≠ fromHex (params_id req)) →
           (id_keyed r = false → j ≠ gen) →
           collection d' c !! j = collection d c !! j).
  { destruct (route_handler r req) as [resp|T c k catch] eqn:Hh;
      [by exists d|]. simpl.
    destruct (exec gen d c) as [[x d']|] eqn:Hexec; [|by exists d].
    exists d'. split; [done|]. intros c' j Hid Hgen.
    apply (exec_frame gen d d' c x c' j Hexec).
    pose proof (handler_target r req gen j Hid Hgen) as Ht.
    by rewrite Hh in Ht. }
  destruct (gated r) eqn:Hg.
  - destruct (serve_gated_cases serverKey r req Hg)
      as [[_ ->]|[(_ & _ & ->)|(_ & _ & ->)]]; [by exists d..|done].
  - by rewrite serve_open.
Qed.

(** X18: an answer that is not a success leaves the database as it was:
    with a status of 400 or more, nothing has been written. *)
Theorem errors_change_nothing serverKey r (req : Request) db gen :
  (400 ≤ status (response (run db gen (serve serverKey r req))))%nat →
  db_after (run db gen (serve serverKey r req)) = db.
Proof.
  assert (Hh : (400 ≤ status (response (run db gen (route_handler r req))))%nat
               → db_after (run db gen (route_handler r req)) = db).
  { destruct db as [d|]; destruct r; simpl; handler_cases;
      unfold found_reply, updated_reply, deleted_reply, created_reply,
        list_reply; handler_cases;
      intros Hs; first [reflexivity | exfalso; lia]. }
  destruct (gated r) eqn:Hg.
  - destruct (serve_gated_cases serverKey r req Hg)
      as [[_ ->]|[(_ & _ & ->)|(_ & _ & ->)]]; done.
  - by rewrite serve_open.
Qed.




End table.

(** ** Validation of bodies *)

Section validation.
Context `{JsNumber} `{!JsToNumber} `{!QueryEngine}.

(** X7: POST /api/products on a request without a parsed body throws
    before any test and is answered with the error page of the framework.
    With a parsed body it answers 400 exactly when [name], [price] or
    [category] is missing or falsy.  In both cases the request issues no
    store call and changes nothing. *)
Theorem product_fields_required serverKey (req : Request) db gen :
  (req_body req = None →
   run db gen (serve serverKey PostProducts req)
   = {| response := uncaught_error; db_after := db; calls := [] |}) ∧
  (∀ body : Doc, req_body req = Some body →
     (product_fields_missing body = true →
      run db gen (serve serverKey PostProducts req)
      = {| response := json 400 (BError "Missing required fields");
           db_after := db; calls := [] |}) ∧
     (product_fields_missing body = false →
      status (response (run db gen (serve serverKey PostProducts req)))
      ≠ 400%nat)).
Proof.
  rewrite serve_open by done. simpl route_handler.
  unfold post_products, product_fields_missing. split.
  - by intros ->.
  - intros body ->.
    destruct (body !! "name") as [name|], (body !! "price") as [price|],
      (body !! "category") as [category|]; simpl;
      try (destruct (truthy name)); try (destruct (truthy price));
      try (destruct (truthy category)); simpl; split; intros Hm; try done;
      destruct db; simpl; repeat case_match; done.
Qed.

(** X8: on a request that carries the key, POST /api/items and PUT
    /api/items/:id read the body first: without a parsed body both throw
    and are answered with the error page of the framework, for PUT
    whatever the identifier is.  With a parsed body, POST answers 400
    exactly when [name] or [description] is missing or falsy; PUT reports
    a malformed identifier whatever the body holds, and with a well-formed
    one answers 400 exactly when [name] or [description] is missing or
    falsy.  None of these answers comes with a store call or a change. *)
Theorem item_fields_required serverKey (req : Request) db gen :
  authorized serverKey req →
  (req_body req = None →
   run db gen (serve serverKey PostItems req)
   = {| response := uncaught_error; db_after := db; calls := [] |} ∧
   run db gen (serve serverKey PutItem req)
   = {| response := uncaught_error; db_after := db; calls := [] |}) ∧
  (∀ body : Doc, req_body req = Some body →
     (item_fields_missing body = true →
      run db gen (serve serverKey PostItems req)
      = {| response :=
             json 400 (BError "Missing required fields: name, description");
           db_after := db; calls := [] |}) ∧
     (item_fields_missing body = false →
      status (response (run db gen (serve serverKey PostItems req)))
      ≠ 400%nat) ∧
     (isValid (params_id req) = false →
      run db gen (serve serverKey PutItem req)
      = {| response := json 400 (BError "Invalid item ID");
           db_after := db; calls := [] |}) ∧
     (isValid (params_id req) = true →
      (item_fields_missing body = true →
       run db gen (serve serverKey PutItem req)
       = {| response :=
              json 400
                (BError "PUT requires full item data: name, description");
            db_after := db; calls := [] |}) ∧
      (item_fields_missing body = false →
       status (response (run db gen (serve serverKey PutItem req)))
       ≠ 400%nat))).
Proof.
  intros Hauth. rewrite !(serve_authorized _ _ _ Hauth). simpl route_handler.
  unfold post_items, put_item, item_fields_missing. split.
  - by intros ->.
  - intros body ->. split; [|split; [|split]].
    + destruct (body !! "name") as [name|],
        (body !! "description") as [description|]; simpl;
        try (destruct (truthy name)); try (destruct (truthy description));
        simpl; by intros Hm.
    + destruct (body !! "name") as [name|],
        (body !! "description") as [description|]; simpl;
        try (destruct (truthy name)); try (destruct (truthy description));
        simpl; intros Hm; try done;
        destruct db; simpl; repeat case_match; done.
    + by intros ->.
    + intros ->. simpl.
      destruct (body !! "name") as [name|],
        (body !! "description") as [description|]; simpl;
        try (destruct (truthy name)); try (destruct (truthy description));
        simpl; split; intros Hm; try done;
        destruct db; simpl; unfold updated_reply;
        repeat case_match; done.
Qed.

End validation.

(** ** Sequences of requests on the items *)

Section sequences.
Context `{JsNumber} `{!JsToNumber} `{!QueryEngine}.

(** X9: an update never creates a document.  A PUT or a PATCH that passes
    the gate and the validation, on an identifier that no item has, issues
    its [updateOne], answers 404 and leaves the database as it was. *)
Theorem update_of_absent_item serverKey (req : Request) (d : Db) gen
    (body : Doc) :
  authorized serverKey req →
  isValid (params_id req) = true →
  req_body req = Some body →
  items d !! fromHex (params_id req) = None →
  (∀ name description,
     body !! "name" = Some name →
     body !! "description" = Some description →
     truthy name = true → truthy description = true →
     run (Some d) gen (serve serverKey PutItem req)
     = {| response := json 404 (BError "Item not found");
          db_after := Some d;
          calls := [Log (UpdateOne Items (fromHex (params_id req))
                           {[ "name" := name;
                              "description" := description ]})] |}) ∧
  (body ≠ ∅ →
   run (Some d) gen (serve serverKey PatchItem req)
   = {| response := json 404 (BError "Item not found");
        db_after := Some d;
        calls := [Log (UpdateOne Items (fromHex (params_id req)) body)] |}).
Proof.
  intros Hauth Hid Hb Hnone. split.
  - intros name description Hn Hd Htn Htd.
    rewrite (serve_authorized _ _ _ Hauth). simpl route_handler.
    rewrite (put_item_valid req body name description) by done.
    by rewrite run_update_missing.
  - intros Hne. rewrite (serve_authorized _ _ _ Hauth). simpl route_handler.
    rewrite (patch_item_nonempty req body) by done.
    by rewrite run_update_missing.
Qed.

(** X10: any stored document is read by the hexadecimal form of its
    identifier: GET by that string answers 200 with the document as
    stored, and 404 when the collection has no document under the
    identifier.  This holds for the products and for the items. *)
Theorem read_by_hex_identifier serverKey (req : Request) (d : Db) gen i :
  (i < oid_bound)%N →
  params_id req = toHexString i →
  response (run (Some d) gen (serve serverKey GetProductById req))
  = match products d !! i with
    | Some doc => json 200 (BDoc doc)
    | None => json 404 (BError "Product not found")
    end ∧
  response (run (Some d) gen (serve serverKey GetItemById req))
  = match items d !! i with
    | Some doc => json 200 (BDoc doc)
    | None => json 404 (BError "Item not found")
    end.
Proof.
  intros Hi Hreq.
  assert (Hid : isValid (params_id req) = true)
    by (rewrite Hreq; apply isValid_toHexString).
  rewrite !serve_open by done. simpl route_handler.
  rewrite get_product_by_id_valid, get_item_by_id_valid by done.
  rewrite !run_find_one, Hreq, fromHex_toHexString by done.
  done.
Qed.

(** X11: there is no duplicate detection.  The same valid POST /api/items
    sent twice is answered 201 twice, with the two generated identifiers,
    and leaves two documents with the same name and description; the
    documents that were there are as before. *)
Theorem same_create_twice serverKey (req : Request) (d : Db) gen1 gen2
    (body : Doc) name description :
  authorized serverKey req →
  req_body req = Some body →
  body !! "name" = Some name →
  body !! "description" = Some description →
  truthy name = true → truthy description = true →
  items d !! gen1 = None → items d !! gen2 = None → gen1 ≠ gen2 →
  let first := run (Some d) gen1 (serve serverKey PostItems req) in
  let second := run (db_after first) gen2 (serve serverKey PostItems req) in
  response first = json 201 (BCreated "Item created" "id" gen1) ∧
  response second = json 201 (BCreated "Item created" "id" gen2) ∧
  ∃ d'', db_after second = Some d'' ∧
    items d'' !! gen1
    = Some {[ "_id" := VId gen1; "name" := name;
              "description" := description ]} ∧
    items d'' !! gen2
    = Some {[ "_id" := VId gen2; "name" := name;
              "description" := description ]} ∧
    (∀ j, j ≠ gen1 → j ≠ gen2 → items d'' !! j = items d !! j) ∧
    products d'' = products d.
Proof.
  intros Hauth Hb Hn Hd Htn Htd Hf1 Hf2 Hne. cbv zeta.
  rewrite (serve_authorized _ _ _ Hauth). simpl route_handler.
  rewrite (post_items_valid req body name description) by done.
  rewrite run_insert_fresh by (done || apply new_item_no_id).
  cbn [response db_after]. split; [done|].
  rewrite run_insert_fresh;
    [|apply new_item_no_id
     |by rewrite collection_with_collection, lookup_insert_ne].
  cbn [response db_after]. split; [done|].
  eexists. split; [reflexivity|]. simpl.
  split; [by rewrite lookup_insert_ne, lookup_insert_eq|].
  split; [by rewrite lookup_insert_eq|].
  split; [|done].
  intros j Hj1 Hj2. by rewrite !lookup_insert_ne.
Qed.

(** X12: creating an item and then deleting it by the identifier returned
    gives back the database as it was before the creation. *)
Theorem create_then_delete_restores serverKey (req req' : Request) (d : Db)
    gen gen' (body : Doc) name description :
  authorized serverKey req → authorized serverKey req' →
  req_body req = Some body →
  body !! "name" = Some name →
  body !! "description" = Some description →
  truthy name = true → truthy description = true →
  items d !! gen = None → (gen < oid_bound)%N →
  let created := run (Some d) gen (serve serverKey PostItems req) in
  created_id (response created) = Some (params_id req') →
  let deleted := run (db_after created) gen' (serve serverKey DeleteItem req') in
  status (response created) = 201%nat ∧
  response deleted = {| status := 204; body := BEmpty |} ∧
  db_after deleted = Some d.
Proof.
  intros Hauth Hauth' Hb Hn Hd Htn Htd Hfresh Hgen. cbv zeta.
  rewrite !(serve_authorized _ _ _ Hauth), (serve_authorized _ _ _ Hauth').
  simpl route_handler.
  rewrite (post_items_valid req body name description) by done.
  rewrite run_insert_fresh by (done || apply new_item_no_id).
  cbn [response db_after]. unfold created_id. simpl.
  intros [= Hid]. split; [done|].
  rewrite delete_item_valid by (rewrite <- Hid; apply isValid_toHexString).
  rewrite <- Hid, fromHex_toHexString by done.
  erewrite run_delete_found by apply lookup_insert_eq.
  cbn [response db_after]. split; [done|].
  f_equal. simpl. rewrite delete_insert_id by done. by destruct d.
Qed.

(** X13: on an existing item, the same non-empty PATCH whose body does not
    name [_id], sent twice in a row, is answered 200 both times and the
    database after the second is the database after the first. *)
Theorem patch_twice_same_state serverKey (req : Request) (d : Db) gen gen'
    (body : Doc) old :
  authorized serverKey req →
  isValid (params_id req) = true →
  req_body req = Some body →
  body ≠ ∅ →
  body !! "_id" = None →
  items d !! fromHex (params_id req) = Some old →
  let first := run (Some d) gen (serve serverKey PatchItem req) in
  let second := run (db_after first) gen' (serve serverKey PatchItem req) in
  status (response first) = 200%nat ∧
  status (response second) = 200%nat ∧
  db_after second = db_after first.
Proof.
  intros Hauth Hid Hb Hne Hno Hold. cbv zeta.
  rewrite (serve_authorized _ _ _ Hauth). simpl route_handler.
  rewrite (patch_item_nonempty req body) by done.
  rewrite (run_update_found d gen Items _ _ old)
    by (done || by apply rewrites_id_unnamed).
  cbn [db_after response].
  erewrite run_update_found;
    [|rewrite collection_with_collection; apply lookup_insert_eq
     |by apply rewrites_id_unnamed].
  cbn [db_after response]. split; [done|]. split; [done|].
  f_equal. simpl. f_equal. by rewrite insert_insert_eq, set_twice.
Qed.

(** X14: deleting an existing item twice: the first DELETE answers 204, the
    second one 404, and the second changes nothing. *)
Theorem delete_twice serverKey (req : Request) (d : Db) gen gen' :
  authorized serverKey req →
  isValid (params_id req) = true →
  is_Some (items d !! fromHex (params_id req)) →
  let first := run (Some d) gen (serve serverKey DeleteItem req) in
  let second := run (db_after first) gen' (serve serverKey DeleteItem req) in
  response first = {| status := 204; body := BEmpty |} ∧
  response second = json 404 (BError "Item not found") ∧
  db_after second = db_after first.
Proof.
  intros Hauth Hid [old Hold]. cbv zeta.
  rewrite (serve_authorized _ _ _ Hauth). simpl route_handler.
  rewrite delete_item_valid by done.
  rewrite (run_delete_found d gen Items _ old) by done.
  cbn [db_after response]. split; [done|].
  rewrite run_delete_missing
    by (rewrite collection_with_collection; apply lookup_delete_eq).
  done.
Qed.

(** X15: an update is seen by the next read.  After a PUT that passes the
    gate and the validation on an existing item, a GET on the same
    identifier answers 200 with the item carrying the new name and
    description over its former fields; after a PATCH with a non-empty
    body that does not name [_id], the first being answered 200, it
    carries the fields of the body over its former fields. *)
Theorem update_then_read serverKey (req req' : Request) (d : Db) gen gen'
    (body : Doc) old :
  authorized serverKey req →
  isValid (params_id req) = true →
  req_body req = Some body →
  items d !! fromHex (params_id req) = Some old →
  params_id req' = params_id req →
  (∀ name description,
     body !! "name" = Some name →
     body !! "description" = Some description →
     truthy name = true → truthy description = true →
     response
       (run (db_after (run (Some d) gen (serve serverKey PutItem req)))
            gen' (serve serverKey GetItemById req'))
     = json 200 (BDoc ({[ "name" := name; "description" := description ]}
                         ∪ old))) ∧
  (body ≠ ∅ → body !! "_id" = None →
   status (response (run (Some d) gen (serve serverKey PatchItem req)))
   = 200%nat ∧
   response
     (run (db_after (run (Some d) gen (serve serverKey PatchItem req)))
          gen' (serve serverKey GetItemById req'))
   = json 200 (BDoc (body ∪ old))).
Proof.
  intros Hauth Hid Hb Hold Hreq'.
  assert (Hid' : isValid (params_id req') = true) by (by rewrite Hreq').
  rewrite !(serve_authorized _ _ _ Hauth).
  rewrite (serve_open _ GetItemById) by done. simpl route_handler.
  rewrite get_item_by_id_valid by done. split.
  - intros name description Hn Hd Htn Htd.
    rewrite (put_item_valid req body name description) by done.
    rewrite (run_update_found d gen Items _ _ old)
      by (done || apply name_description_keeps_id).
    cbn [db_after]. rewrite run_find_one, Hreq'. simpl.
    by rewrite lookup_insert_eq.
  - intros Hne Hno. rewrite (patch_item_nonempty req body) by done.
    rewrite (run_update_found d gen Items _ _ old)
      by (done || by apply rewrites_id_unnamed).
    cbn [db_after response]. split; [done|].
    rewrite run_find_one, Hreq'. simpl.
    by rewrite lookup_insert_eq.
Qed.

End sequences.

(** ** The projection as a set of names *)

Section projection.
Context `{JsNumber} `{!JsToNumber} `{!QueryEngine}.

(** X16: the projection depends on the set of names in [fields] only, not
    on their order or on repetitions: two non-empty [fields] strings with
    the same comma-separated pieces make GET /api/products issue the same
    query. *)
Theorem projection_is_a_set (req : Request) (s s' : string) :
  s ≠ "" → s' ≠ "" →
  (∀ k, k ∈ split "," s ↔ k ∈ split "," s') →
  build_projection (Some (VStr s)) = build_projection (Some (VStr s')) ∧
  get_products
    {| params_id := params_id req;
       query := <["fields" := VStr s]> (query req);
       req_body := req_body req; x_api_key := x_api_key req |}
  = get_products
      {| params_id := params_id req;
         query := <["fields" := VStr s']> (query req);
         req_body := req_body req; x_api_key := x_api_key req |}.
Proof.
  intros Hs Hs' Hsame.
  assert (Hp : build_projection (Some (VStr s))
               = build_projection (Some (VStr s'))).
  { rewrite !build_projection_string by done. do 2 f_equal.
    apply map_eq. intros k. rewrite !fold_assign_one_lookup.
    destruct (decide (k ∈ split "," s ∧ _)) as [Hk|Hk],
      (decide (k ∈ split "," s' ∧ _)) as [Hk'|Hk'];
      first [reflexivity | exfalso; rewrite Hsame in *; tauto]. }
  split; [exact Hp|].
  unfold get_products. simpl.
  rewrite !lookup_insert_eq, !lookup_insert_ne by done.
  by rewrite Hp.
Qed.

End projection.

(** ** The model on concrete requests *)

#[local] Existing Instance sample_numbers.
#[local] Existing Instance sample_coercion.
#[local] Existing Instance sample_engine.

(** [PUT /api/items/not-an-id] with the key and a full body. *)
Lemma malformed_id_rejected_witness :
  id_keyed PutItem = true ∧
  ¬ hex24 (params_id (request "not-an-id" ∅ body_with_extra (Some "s3cret"))) ∧
  is_Some (req_body (request "not-an-id" ∅ body_with_extra (Some "s3cret"))) ∧
  calls (run (Some sample_db) unused_id
           (serve (Some "s3cret") PutItem
              (request "not-an-id" ∅ body_with_extra (Some "s3cret"))))
  = [] ∧
  status (response (run (Some sample_db) unused_id
           (serve (Some "s3cret") PutItem
              (request "not-an-id" ∅ body_with_extra (Some "s3cret")))))
  = 400%nat.
Proof.
  assert (Hr : id_keyed PutItem = true) by reflexivity.
  assert (Hid : ¬ hex24 (params_id (request "not-an-id" ∅ body_with_extra
                                      (Some "s3cret")))).
  { intros [Hlen _]. vm_compute in Hlen. discriminate Hlen. }
  assert (Hb : is_Some (req_body (request "not-an-id" ∅ body_with_extra
                                    (Some "s3cret"))))
    by (exists body_with_extra; reflexivity).
  destruct (malformed_id_rejected (Some "s3cret") PutItem
              (request "not-an-id" ∅ body_with_extra (Some "s3cret"))
              (Some sample_db) unused_id Hr Hid (fun _ => Hb))
    as (_ & _ & _ & Hcalls & _ & Hstatus & _).
  split; [exact Hr|]. split; [exact Hid|]. split; [exact Hb|].
  split; [exact Hcalls|].
  apply Hstatus. right. split; reflexivity.
Defined.

(** C1: on PUT /api/items/:id the claim is right and the handler is not.
    For a request that carries the key, a malformed identifier and no
    parsed body, the handler destructures the body before it tests the
    identifier, outside [try]: it throws, and the answer is the error page
    of the framework with status 500, not the 400 of the malformed
    identifier.  No store call is issued and nothing changes. *)
Lemma put_without_body_skips_id_test :
  id_keyed PutItem = true ∧
  ¬ hex24 (params_id put_bodyless) ∧
  authorized (Some "s3cret") put_bodyless ∧
  req_body put_bodyless = None ∧
  run (Some sample_db) unused_id (serve (Some "s3cret") PutItem put_bodyless)
  = {| response := uncaught_error; db_after := Some sample_db; calls := [] |} ∧
  status (response (run (Some sample_db) unused_id
                      (serve (Some "s3cret") PutItem put_bodyless)))
  ≠ 400%nat.
Proof.
  split; [reflexivity|]. split.
  { intros [Hlen _]. vm_compute in Hlen. discriminate Hlen. }
  split; [split; reflexivity|]. split; [reflexivity|].
  split; [reflexivity|]. vm_compute. discriminate.
Qed.

(** C2 as stated fails on an empty header: the header is present and is
    not the secret, and the answer is 401, not 403. *)
Lemma empty_header_answered_401 :
  x_api_key (request sample_id_hex ∅ body_with_extra (Some "")) ≠ None ∧
  x_api_key (request sample_id_hex ∅ body_with_extra (Some ""))
  ≠ Some "s3cret" ∧
  status (response (run (Some sample_db) unused_id
            (serve (Some "s3cret") PostItems
               (request sample_id_hex ∅ body_with_extra (Some "")))))
  = 401%nat ∧
  status (response (run (Some sample_db) unused_id
            (serve (Some "s3cret") PostItems
               (request sample_id_hex ∅ body_with_extra (Some "")))))
  ≠ 403%nat.
Proof. repeat split; vm_compute; discriminate. Qed.

Lemma gate_decides_first_witness :
  gated PutItem = true ∧
  serve (Some "s3cret") PutItem
    (request "not-an-id" ∅ ∅ (Some "guess"))
  = Done (json 403 (BError "Forbidden: Invalid API key")) ∧
  serve (Some "s3cret") PutItem
    (request sample_id_hex ∅ body_with_extra (Some "s3cret"))
  = route_handler PutItem
      (request sample_id_hex ∅ body_with_extra (Some "s3cret")).
Proof.
  assert (Hg : gated PutItem = true) by reflexivity.
  split; [exact Hg|]. split.
  - destruct (gate_decides_first (Some "s3cret") PutItem
                (request "not-an-id" ∅ ∅ (Some "guess")) None unused_id Hg)
      as (_ & Hwrong & _).
    apply (Hwrong "guess"); [reflexivity|discriminate|discriminate].
  - destruct (gate_decides_first (Some "s3cret") PutItem
                (request sample_id_hex ∅ body_with_extra (Some "s3cret"))
                None unused_id Hg)
      as (_ & _ & Hright & _).
    apply (Hright "s3cret"); [reflexivity|discriminate|reflexivity].
Defined.

(** C9 as stated fails on an empty header: with no key configured the
    header is present, and the answer is 401, not 403. *)
Lemma unset_key_empty_header_answered_401 :
  x_api_key (request sample_id_hex ∅ ∅ (Some "")) = Some "" ∧
  status (response (run (Some sample_db) unused_id
            (serve None DeleteItem (request sample_id_hex ∅ ∅ (Some "")))))
  = 401%nat ∧
  status (response (run (Some sample_db) unused_id
            (serve None DeleteItem (request sample_id_hex ∅ ∅ (Some "")))))
  ≠ 403%nat.
Proof. repeat split; vm_compute; discriminate. Qed.

Lemma unset_key_locks_mutations_witness :
  gated DeleteItem = true ∧
  serve None DeleteItem (request sample_id_hex ∅ ∅ (Some "anything"))
  = Done (json 403 (BError "Forbidden: Invalid API key")) ∧
  db_after (run (Some sample_db) unused_id
              (serve None DeleteItem
                 (request sample_id_hex ∅ ∅ (Some "anything"))))
  = Some sample_db.
Proof.
  assert (Hg : gated DeleteItem = true) by reflexivity.
  destruct (unset_key_locks_mutations DeleteItem
              (request sample_id_hex ∅ ∅ (Some "anything"))
              (Some sample_db) unused_id Hg)
    as (_ & Hwrong & _ & _ & Hdb & _).
  split; [exact Hg|]. split; [|exact Hdb].
  apply (Hwrong "anything"); [reflexivity|discriminate].
Defined.



Lemma sample_authorized (id : string) (q b : Doc) :
  authorized (Some "s3cret") (request id q b (Some "s3cret")).
Proof. split; reflexivity. Defined.

Lemma put_sets_name_and_description_witness :
  authorized (Some "s3cret") put_extra ∧
  isValid (params_id put_extra) = true ∧
  items sample_db !! fromHex (params_id put_extra) = Some sample_item ∧
  ∃ new d',
    db_after (run (Some sample_db) unused_id
                (serve (Some "s3cret") PutItem put_extra)) = Some d' ∧
    items d' !! sample_id = Some new ∧
    new !! "name" = Some (VStr "Pencil") ∧
    new !! "stock" = Some (@VNum sample_numbers (Int 3)).
Proof.
  assert (Hauth : authorized (Some "s3cret") put_extra)
    by apply sample_authorized.
  assert (Hid : isValid (params_id put_extra) = true) by reflexivity.
  assert (Hold : items sample_db !! fromHex (params_id put_extra)
                 = Some sample_item) by (vm_compute; reflexivity).
  destruct (put_sets_name_and_description (Some "s3cret") put_extra sample_db
              unused_id body_with_extra (VStr "Pencil") (VStr "HB")
              sample_item Hauth Hid eq_refl)
    as (new & d' & Hrun & Hnew & Hname & _ & Hother & _);
    try (vm_compute; reflexivity).
  split; [exact Hauth|]. split; [exact Hid|]. split; [exact Hold|].
  exists new, d'. split; [by rewrite Hrun|]. split; [exact Hnew|].
  split; [exact Hname|].
  rewrite (Hother "stock") by discriminate. vm_compute. reflexivity.
Defined.

(** C4 as stated fails when the body holds a field besides [name] and
    [description]: the PUT is answered 200 and the field sent is not in
    the item afterwards. *)
Lemma put_leaves_out_sent_field :
  req_body put_extra = Some body_with_extra ∧
  body_with_extra !! "color" = Some (VStr "red") ∧
  status (response (run (Some sample_db) unused_id
                      (serve (Some "s3cret") PutItem put_extra)))
  = 200%nat ∧
  (db_after (run (Some sample_db) unused_id
               (serve (Some "s3cret") PutItem put_extra))
     ≫= fun d => items d !! sample_id)
  = Some {[ "_id" := VId sample_id; "name" := VStr "Pencil";
            "description" := VStr "HB";
            "stock" := @VNum sample_numbers (Int 3) ]} ∧
  ({[ "_id" := VId sample_id; "name" := VStr "Pencil";
      "description" := VStr "HB"; "stock" := @VNum sample_numbers (Int 3) ]}
     : Doc) !! "color" = None.
Proof. repeat split; vm_compute; reflexivity. Qed.

Lemma put_twice_same_state_witness :
  authorized (Some "s3cret") put_extra ∧
  isValid (params_id put_extra) = true ∧
  status (response (run (Some sample_db) unused_id
                      (serve (Some "s3cret") PutItem put_extra)))
  = 200%nat ∧
  db_after (run (db_after (run (Some sample_db) unused_id
                             (serve (Some "s3cret") PutItem put_extra)))
              unused_id (serve (Some "s3cret") PutItem put_extra))
  = db_after (run (Some sample_db) unused_id
                (serve (Some "s3cret") PutItem put_extra)).
Proof.
  assert (Hauth : authorized (Some "s3cret") put_extra)
    by apply sample_authorized.
  assert (Hid : isValid (params_id put_extra) = true) by reflexivity.
  destruct (put_twice_same_state (Some "s3cret") put_extra sample_db
              unused_id unused_id body_with_extra (VStr "Pencil") (VStr "HB")
              sample_item Hauth Hid eq_refl)
    as (Hfirst & _ & Hsame & _); try (vm_compute; reflexivity).
  split; [exact Hauth|]. split; [exact Hid|]. split; [exact Hfirst|].
  exact Hsame.
Defined.

Lemma delete_then_get_witness :
  authorized (Some "s3cret") delete_sample ∧
  isValid (params_id delete_sample) = true ∧
  calls (run (Some sample_db) unused_id
           (serve (Some "s3cret") DeleteItem delete_sample))
  = [Log (DeleteOne Items sample_id)] ∧
  response (run (Some sample_db) unused_id
              (serve (Some "s3cret") DeleteItem delete_sample))
  = {| status := 204; body := BEmpty |} ∧
  response (run (db_after (run (Some sample_db) unused_id
                             (serve (Some "s3cret") DeleteItem delete_sample)))
              unused_id (serve None GetItemById get_sample))
  = json 404 (BError "Item not found").
Proof.
  assert (Hauth : authorized (Some "s3cret") delete_sample)
    by apply sample_authorized.
  assert (Hid : isValid (params_id delete_sample) = true) by reflexivity.
  destruct (delete_then_get (Some "s3cret") delete_sample sample_db unused_id
              Hauth Hid)
    as (Hcalls & _ & Hfound & Hget).
  split; [exact Hauth|]. split; [exact Hid|]. split; [exact Hcalls|].
  split.
  - apply Hfound. exists sample_item. vm_compute. reflexivity.
  - apply (Hget None unused_id get_sample). reflexivity.
Defined.

Lemma patch_empty_or_merge_witness :
  isValid (params_id patch_nothing) = true ∧
  req_body patch_nothing = Some ∅ ∧
  response (run (Some sample_db) unused_id
              (serve (Some "s3cret") PatchItem patch_nothing))
  = json 400 (BError "No fields provided for update") ∧
  req_body patch_color = Some {[ "color" := VStr "red" ]} ∧
  ({[ "color" := VStr "red" ]} : Doc) ≠ ∅ ∧
  ({[ "color" := VStr "red" ]} : Doc) !! "_id" = None ∧
  ∃ new d',
    db_after (run (Some sample_db) unused_id
                (serve (Some "s3cret") PatchItem patch_color)) = Some d' ∧
    items d' !! sample_id = Some new ∧
    new !! "color" = Some (VStr "red") ∧
    new !! "name" = Some (VStr "Pen").
Proof.
  assert (Hid : isValid sample_id_hex = true) by reflexivity.
  assert (Hne : ({[ "color" := VStr "red" ]} : Doc) ≠ ∅).
  { intros Hb. apply (f_equal (fun m : Doc => m !! "color")) in Hb.
    vm_compute in Hb. discriminate Hb. }
  assert (Hno : ({[ "color" := VStr "red" ]} : Doc) !! "_id" = None)
    by (vm_compute; reflexivity).
  split; [exact Hid|]. split; [reflexivity|].
  split; [|split; [reflexivity|split; [exact Hne|split; [exact Hno|]]]].
  - destruct (patch_empty_or_merge (Some "s3cret") patch_nothing sample_db
                unused_id Hid) as [Hempty _].
    destruct (Hempty (or_intror eq_refl)) as (_ & _ & Hresp).
    apply Hresp, sample_authorized.
  - destruct (patch_empty_or_merge (Some "s3cret") patch_color sample_db
                unused_id Hid) as [_ Hmerge].
    destruct (Hmerge {[ "color" := VStr "red" ]} eq_refl Hne) as [_ Hrun].
    destruct (Hrun Hno (sample_authorized _ _ _) sample_item)
      as (new & d' & Hout & Hnew & Hsent & Hkept & _);
      [vm_compute; reflexivity|].
    exists new, d'. split; [by rewrite Hout|]. split; [exact Hnew|]. split.
    + apply Hsent. vm_compute. reflexivity.
    + rewrite (Hkept "name") by (vm_compute; reflexivity).
      vm_compute. reflexivity.
Defined.

(** C6 as stated fails on a body that names [_id]: the identifier is well
    formed, the body is not empty, the item exists and the key is right,
    yet the store rejects the update, the answer is 500 and the item is as
    it was: the field sent has not been merged. *)
Lemma patch_naming_id_is_rejected :
  isValid (params_id patch_id) = true ∧
  authorized (Some "s3cret") patch_id ∧
  req_body patch_id = Some {[ "_id" := VStr "x" ]} ∧
  items sample_db !! fromHex (params_id patch_id) = Some sample_item ∧
  run (Some sample_db) unused_id (serve (Some "s3cret") PatchItem patch_id)
  = {| response := server_error; db_after := Some sample_db;
       calls := [Log (UpdateOne Items sample_id {[ "_id" := VStr "x" ]})] |} ∧
  status (response (run (Some sample_db) unused_id
                      (serve (Some "s3cret") PatchItem patch_id)))
  ≠ 200%nat ∧
  sample_item !! "_id" ≠ Some (VStr "x").
Proof.
  split; [reflexivity|]. split; [split; reflexivity|].
  split; [reflexivity|]. split; [vm_compute; reflexivity|].
  split; [vm_compute; reflexivity|].
  split; vm_compute; discriminate.
Qed.


(** C5 as stated fails on [?category=], where the parameter is given and
    the filter has no category predicate, and on a repeated [fields]
    parameter, where no query is issued at all. *)
Lemma listing_query_counterexamples :
  query list_empty_category !! "category" = Some (VStr "") ∧
  get_products list_empty_category
  = Await (Find Products empty_filter None None)
          (list_reply "products") server_error ∧
  is_Some (query list_repeated_fields !! "fields") ∧
  get_products list_repeated_fields = Done server_error.
Proof.
  split; [vm_compute; reflexivity|]. split; [reflexivity|].
  split; [|reflexivity]. eexists. vm_compute. reflexivity.
Qed.

Lemma products_query_witness :
  fields_splittable (query list_office !! "fields") ∧
  ∃ filter projection order,
    get_products list_office
    = Await (Find Products filter projection order)
            (list_reply "products") server_error ∧
    filter_category filter = Some (VStr "office") ∧
    filter_price_gte filter = Some (Int 5) ∧
    (projection ≫= fun p => p !! "name") = Some 1%nat ∧
    (projection ≫= fun p => p !! "category") = None ∧
    order = Some [("price", 1%Z)].
Proof.
  assert (Hf : fields_splittable (query list_office !! "fields")).
  { right. exists "name,price". vm_compute. reflexivity. }
  destruct (products_query list_office) as [Hquery _].
  destruct (Hquery Hf)
    as (filter & projection & order & Hget & Hcat & Hprice & Hproj & Hkeys
        & Hsort & _).
  split; [exact Hf|]. exists filter, projection, order.
  split; [exact Hget|]. split.
  { apply Hcat. split; vm_compute; reflexivity. }
  split.
  { apply Hprice. exists (VStr "5"). repeat split; vm_compute; reflexivity. }
  destruct Hproj as [_ Hproj].
  destruct Hproj as [p Hp]; [vm_compute; reflexivity|].
  specialize (Hkeys "name,price" p ltac:(vm_compute; reflexivity) Hp).
  rewrite Hp. simpl. rewrite !Hkeys.
  split; [vm_compute; reflexivity|]. split; [vm_compute; reflexivity|].
  apply Hsort. vm_compute. reflexivity.
Defined.

(** ** More of the model on concrete requests *)

Lemma get_routes_keep_database_witness :
  read_only GetItemById = true ∧
  db_after (run (Some sample_db) unused_id
              (serve (Some "s3cret") GetItemById get_sample))
  = Some sample_db.
Proof.
  split; [reflexivity|].
  apply (get_routes_keep_database (Some "s3cret") GetItemById get_sample
           (Some sample_db) unused_id).
  reflexivity.
Defined.

(** A partial update that names [_id] is rejected by the store. *)
Lemma store_failure_answers_500_witness :
  store_rejects unused_id sample_db (serve (Some "s3cret") PatchItem patch_id)
  = true ∧
  calls (run_rejecting (Some sample_db)
           (serve (Some "s3cret") PatchItem patch_id)) ≠ [] ∧
  response (run (Some sample_db) unused_id
              (serve (Some "s3cret") PatchItem patch_id))
  = server_error.
Proof.
  assert (Hrej : store_rejects unused_id sample_db
                   (serve (Some "s3cret") PatchItem patch_id) = true)
    by (vm_compute; reflexivity).
  assert (Hcalls : calls (run_rejecting (Some sample_db)
                            (serve (Some "s3cret") PatchItem patch_id)) ≠ [])
    by (vm_compute; discriminate).
  destruct (store_failure_answers_500 (Some "s3cret") PatchItem patch_id
              (Some sample_db)) as [Hresp Hrun].
  split; [exact Hrej|]. split; [exact Hcalls|].
  rewrite (Hrun sample_db unused_id Hrej). exact (Hresp Hcalls).
Defined.

Lemma open_routes_ignore_key_witness :
  gated PostProducts = false ∧
  run (Some sample_db) unused_id (serve None PostProducts post_pen)
  = run (Some sample_db) unused_id
      (serve (Some "s3cret") PostProducts (with_key (Some "guess") post_pen)).
Proof.
  split; [reflexivity|].
  destruct (open_routes_ignore_key None (Some "s3cret") (Some "guess")
              PostProducts post_pen (Some sample_db) unused_id eq_refl)
    as [Hsame _].
  exact Hsame.
Defined.

Lemma update_of_absent_item_witness :
  authorized (Some "s3cret") put_unused ∧
  isValid (params_id put_unused) = true ∧
  items sample_db !! fromHex (params_id put_unused) = None ∧
  response (run (Some sample_db) third_id
              (serve (Some "s3cret") PutItem put_unused))
  = json 404 (BError "Item not found") ∧
  db_after (run (Some sample_db) third_id
              (serve (Some "s3cret") PutItem put_unused))
  = Some sample_db.
Proof.
  assert (Hauth : authorized (Some "s3cret") put_unused)
    by apply sample_authorized.
  assert (Hid : isValid (params_id put_unused) = true) by reflexivity.
  assert (Hnone : items sample_db !! fromHex (params_id put_unused) = None)
    by (vm_compute; reflexivity).
  destruct (update_of_absent_item (Some "s3cret") put_unused sample_db
              third_id body_with_extra Hauth Hid eq_refl Hnone) as [Hput _].
  split; [exact Hauth|]. split; [exact Hid|]. split; [exact Hnone|].
  rewrite (Hput (VStr "Pencil") (VStr "HB"));
    [split; reflexivity|vm_compute; reflexivity..].
Defined.

Lemma read_by_hex_identifier_witness :
  (sample_id < oid_bound)%N ∧
  params_id get_sample = toHexString sample_id ∧
  response (run (Some sample_db) unused_id
              (serve None GetItemById get_sample))
  = json 200 (BDoc sample_item).
Proof.
  assert (Hi : (sample_id < oid_bound)%N) by (vm_compute; reflexivity).
  assert (Hreq : params_id get_sample = toHexString sample_id)
    by (vm_compute; reflexivity).
  destruct (read_by_hex_identifier None get_sample sample_db unused_id
              sample_id Hi Hreq) as [_ Hitem].
  split; [exact Hi|]. split; [exact Hreq|].
  rewrite Hitem. vm_compute. reflexivity.
Defined.

Lemma same_create_twice_witness :
  authorized (Some "s3cret") post_extra ∧
  items sample_db !! unused_id = None ∧
  items sample_db !! third_id = None ∧
  unused_id ≠ third_id ∧
  response (run (db_after (run (Some sample_db) unused_id
                             (serve (Some "s3cret") PostItems post_extra)))
              third_id (serve (Some "s3cret") PostItems post_extra))
  = json 201 (BCreated "Item created" "id" third_id).
Proof.
  assert (Hauth : authorized (Some "s3cret") post_extra)
    by apply sample_authorized.
  assert (Hf1 : items sample_db !! unused_id = None)
    by (vm_compute; reflexivity).
  assert (Hf2 : items sample_db !! third_id = None)
    by (vm_compute; reflexivity).
  assert (Hne : unused_id ≠ third_id) by (vm_compute; discriminate).
  assert (Hn : body_with_extra !! "name" = Some (VStr "Pencil"))
    by (vm_compute; reflexivity).
  assert (Hd : body_with_extra !! "description" = Some (VStr "HB"))
    by (vm_compute; reflexivity).
  destruct (same_create_twice (Some "s3cret") post_extra sample_db unused_id
              third_id body_with_extra (VStr "Pencil") (VStr "HB") Hauth
              eq_refl Hn Hd eq_refl eq_refl Hf1 Hf2 Hne)
    as (_ & Hsecond & _).
  split; [exact Hauth|]. split; [exact Hf1|]. split; [exact Hf2|].
  split; [exact Hne|]. exact Hsecond.
Defined.

Lemma create_then_delete_restores_witness :
  authorized (Some "s3cret") post_extra ∧
  authorized (Some "s3cret") delete_unused ∧
  items sample_db !! unused_id = None ∧
  (unused_id < oid_bound)%N ∧
  created_id (response (run (Some sample_db) unused_id
                          (serve (Some "s3cret") PostItems post_extra)))
  = Some (params_id delete_unused) ∧
  db_after (run (db_after (run (Some sample_db) unused_id
                             (serve (Some "s3cret") PostItems post_extra)))
              third_id (serve (Some "s3cret") DeleteItem delete_unused))
  = Some sample_db.
Proof.
  assert (Hauth : authorized (Some "s3cret") post_extra)
    by apply sample_authorized.
  assert (Hauth' : authorized (Some "s3cret") delete_unused)
    by apply sample_authorized.
  assert (Hfresh : items sample_db !! unused_id = None)
    by (vm_compute; reflexivity).
  assert (Hgen : (unused_id < oid_bound)%N) by (vm_compute; reflexivity).
  assert (Hid : created_id (response (run (Some sample_db) unused_id
                   (serve (Some "s3cret") PostItems post_extra)))
                = Some (params_id delete_unused))
    by (vm_compute; reflexivity).
  assert (Hn : body_with_extra !! "name" = Some (VStr "Pencil"))
    by (vm_compute; reflexivity).
  assert (Hd : body_with_extra !! "description" = Some (VStr "HB"))
    by (vm_compute; reflexivity).
  destruct (create_then_delete_restores (Some "s3cret") post_extra
              delete_unused sample_db unused_id third_id body_with_extra
              (VStr "Pencil") (VStr "HB") Hauth Hauth' eq_refl Hn Hd eq_refl
              eq_refl Hfresh Hgen Hid)
    as (_ & _ & Hdb).
  split; [exact Hauth|]. split; [exact Hauth'|]. split; [exact Hfresh|].
  split; [exact Hgen|]. split; [exact Hid|]. exact Hdb.
Defined.

Lemma patch_twice_same_state_witness :
  authorized (Some "s3cret") patch_color ∧
  isValid (params_id patch_color) = true ∧
  req_body patch_color = Some {[ "color" := VStr "red" ]} ∧
  ({[ "color" := VStr "red" ]} : Doc) ≠ ∅ ∧
  ({[ "color" := VStr "red" ]} : Doc) !! "_id" = None ∧
  db_after (run (db_after (run (Some sample_db) unused_id
                             (serve (Some "s3cret") PatchItem patch_color)))
              unused_id (serve (Some "s3cret") PatchItem patch_color))
  = db_after (run (Some sample_db) unused_id
                (serve (Some "s3cret") PatchItem patch_color)).
Proof.
  assert (Hauth : authorized (Some "s3cret") patch_color)
    by apply sample_authorized.
  assert (Hid : isValid (params_id patch_color) = true) by reflexivity.
  assert (Hne : ({[ "color" := VStr "red" ]} : Doc) ≠ ∅).
  { intros Hb. apply (f_equal (fun m : Doc => m !! "color")) in Hb.
    vm_compute in Hb. discriminate Hb. }
  assert (Hno : ({[ "color" := VStr "red" ]} : Doc) !! "_id" = None)
    by (vm_compute; reflexivity).
  destruct (patch_twice_same_state (Some "s3cret") patch_color sample_db
              unused_id unused_id {[ "color" := VStr "red" ]} sample_item
              Hauth Hid eq_refl Hne Hno)
    as (_ & _ & Hsame); [vm_compute; reflexivity|].
  split; [exact Hauth|]. split; [exact Hid|]. split; [reflexivity|].
  split; [exact Hne|]. split; [exact Hno|]. exact Hsame.
Defined.

Lemma delete_twice_witness :
  authorized (Some "s3cret") delete_sample ∧
  isValid (params_id delete_sample) = true ∧
  is_Some (items sample_db !! fromHex (params_id delete_sample)) ∧
  response (run (db_after (run (Some sample_db) unused_id
                             (serve (Some "s3cret") DeleteItem delete_sample)))
              unused_id (serve (Some "s3cret") DeleteItem delete_sample))
  = json 404 (BError "Item not found").
Proof.
  assert (Hauth : authorized (Some "s3cret") delete_sample)
    by apply sample_authorized.
  assert (Hid : isValid (params_id delete_sample) = true) by reflexivity.
  assert (Hold : is_Some (items sample_db
                            !! fromHex (params_id delete_sample)))
    by (exists sample_item; vm_compute; reflexivity).
  destruct (delete_twice (Some "s3cret") delete_sample sample_db unused_id
              unused_id Hauth Hid Hold) as (_ & Hsecond & _).
  split; [exact Hauth|]. split; [exact Hid|]. split; [exact Hold|].
  exact Hsecond.
Defined.

Lemma update_then_read_witness :
  authorized (Some "s3cret") put_extra ∧
  isValid (params_id put_extra) = true ∧
  items sample_db !! fromHex (params_id put_extra) = Some sample_item ∧
  params_id get_sample = params_id put_extra ∧
  response
    (run (db_after (run (Some sample_db) unused_id
                      (serve (Some "s3cret") PutItem put_extra)))
         unused_id (serve (Some "s3cret") GetItemById get_sample))
  = json 200 (BDoc ({[ "name" := VStr "Pencil"; "description" := VStr "HB" ]}
                      ∪ sample_item)).
Proof.
  assert (Hauth : authorized (Some "s3cret") put_extra)
    by apply sample_authorized.
  assert (Hid : isValid (params_id put_extra) = true) by reflexivity.
  assert (Hold : items sample_db !! fromHex (params_id put_extra)
                 = Some sample_item) by (vm_compute; reflexivity).
  destruct (update_then_read (Some "s3cret") put_extra get_sample sample_db
              unused_id unused_id body_with_extra sample_item Hauth Hid
              eq_refl Hold eq_refl)
    as [Hput _].
  split; [exact Hauth|]. split; [exact Hid|]. split; [exact Hold|].
  split; [reflexivity|].
  apply (Hput (VStr "Pencil") (VStr "HB")); vm_compute; reflexivity.
Defined.

Lemma projection_is_a_set_witness :
  "name,price" ≠ "" ∧ "price,name,name" ≠ "" ∧
  (∀ k, k ∈ split "," "name,price" ↔ k ∈ split "," "price,name,name") ∧
  build_projection (Some (VStr "name,price"))
  = build_projection (Some (VStr "price,name,name")).
Proof.
  assert (Hs : "name,price" ≠ "") by discriminate.
  assert (Hs' : "price,name,name" ≠ "") by discriminate.
  assert (Hsame : ∀ k, k ∈ split "," "name,price"
                       ↔ k ∈ split "," "price,name,name").
  { intros k.
    change (split "," "name,price") with ["name"; "price"].
    change (split "," "price,name,name") with ["price"; "name"; "name"].
    rewrite !elem_of_cons, !elem_of_nil. tauto. }
  destruct (projection_is_a_set get_sample "name,price" "price,name,name"
              Hs Hs' Hsame) as [Hp _].
  split; [exact Hs|]. split; [exact Hs'|]. split; [exact Hsame|]. exact Hp.
Defined.

Lemma errors_change_nothing_witness :
  (400 ≤ status (response (run (Some sample_db) third_id
                             (serve (Some "s3cret") PutItem put_unused))))%nat ∧
  db_after (run (Some sample_db) third_id
              (serve (Some "s3cret") PutItem put_unused))
  = Some sample_db.
Proof.
  assert (Hs : (400 ≤ status (response (run (Some sample_db) third_id
                   (serve (Some "s3cret") PutItem put_unused))))%nat).
  { vm_compute. repeat constructor. }
  split; [exact Hs|].
  exact (errors_change_nothing (Some "s3cret") PutItem put_unused
           (Some sample_db) third_id Hs).
Defined.


Lemma item_fields_required_witness :
  authorized (Some "s3cret") post_unnamed ∧
  req_body post_unnamed
  = Some {[ "name" := VStr ""; "description" := VStr "HB" ]} ∧
  item_fields_missing {[ "name" := VStr ""; "description" := VStr "HB" ]}
  = true ∧
  run (Some sample_db) unused_id (serve (Some "s3cret") PostItems post_unnamed)
  = {| response :=
         json 400 (BError "Missing required fields: name, description");
       db_after := Some sample_db; calls := [] |} ∧
  run (Some sample_db) unused_id (serve (Some "s3cret") PostItems post_bodyless)
  = {| response := uncaught_error; db_after := Some sample_db; calls := [] |}.
Proof.
  assert (Hauth : authorized (Some "s3cret") post_unnamed)
    by apply sample_authorized.
  assert (Hauth' : authorized (Some "s3cret") post_bodyless)
    by (split; reflexivity).
  assert (Hm : item_fields_missing
                 {[ "name" := VStr ""; "description" := VStr "HB" ]} = true)
    by (vm_compute; reflexivity).
  split; [exact Hauth|]. split; [reflexivity|]. split; [exact Hm|]. split.
  - destruct (item_fields_required (Some "s3cret") post_unnamed
                (Some sample_db) unused_id Hauth) as [_ Hbody].
    destruct (Hbody _ eq_refl) as (Hpost & _).
    exact (Hpost Hm).
  - destruct (item_fields_required (Some "s3cret") post_bodyless
                (Some sample_db) unused_id Hauth') as [Hnone _].
    destruct (Hnone eq_refl) as [Hpost _]. exact Hpost.
Defined.
